(** * Call-count telemetry of the SWT GTK bridge: [os_stats.h]

    The header [bundles/org.eclipse.swt/Eclipse SWT PI/gtk/library/os_stats.h]
    has two parts:

    - a conditional group ([#ifdef NATIVE_STATS] ... [#else] ... [#endif])
      that declares three external objects and defines the two function-like
      macros [OS_NATIVE_ENTER] and [OS_NATIVE_EXIT];
    - the enumeration [OS_FUNCS], one enumerator per native entry point.

    The development below embeds both parts.  The enumeration is kept as the
    list of its enumerators, in source order, and its values are computed by
    the rule C uses for enumeration constants.  The conditional group is kept
    as a list of lines that is run through conditional inclusion; the macros
    are then state transformers on the store of external objects, with the
    undefined behaviours of C (access outside an array, overflow of [int])
    as explicit error results. *)

From Stdlib Require Import ZArith Lia Bool Ascii String OrderedTypeEx.
From stdpp Require Import base option list strings gmap.

Local Open Scope string_scope.
Local Open Scope Z_scope.

(** ** The type [int] *)

Module CInt.

(** [int] is 32 bits wide on every ABI the GTK port is built for. *)
Definition width : Z := 32.
Definition INT_MIN : Z := - 2 ^ (width - 1).
Definition INT_MAX : Z := 2 ^ (width - 1) - 1.

Definition in_range (n : Z) : Prop := INT_MIN <= n <= INT_MAX.

End CInt.

(** ** Enumerations *)

Module Enum.

(** An enumerator of an enumerator-list is either a plain identifier or an
    identifier with an explicit constant ([name = value]). *)
Inductive enumerator : Type :=
| Plain (name : string)
| Explicit (name : string) (value : Z).

Definition enumerator_name (e : enumerator) : string :=
  match e with
  | Plain n => n
  | Explicit n _ => n
  end.

Definition is_plain (e : enumerator) : bool :=
  match e with
  | Plain _ => true
  | Explicit _ _ => false
  end.

(** The rule of C for enumeration constants: an explicit constant is the
    value; otherwise the value is that of the previous enumerator plus one,
    and the first enumerator has value 0. *)
Fixpoint values_from (next : Z) (es : list enumerator) : list (string * Z) :=
  match es with
  | [] => []
  | Plain n :: es' => (n, next) :: values_from (next + 1) es'
  | Explicit n v :: es' => (n, v) :: values_from (v + 1) es'
  end.

Definition values (es : list enumerator) : list (string * Z) :=
  values_from 0 es.

(** The value an identifier denotes once the enumeration is declared. *)
Fixpoint assoc (x : string) (vs : list (string * Z)) : option Z :=
  match vs with
  | [] => None
  | (n, v) :: vs' => if String.eqb x n then Some v else assoc x vs'
  end.

End Enum.

(** ** The enumeration [OS_FUNCS] (source lines 27 to 1015) *)

Definition OS_FUNCS : list Enum.enumerator :=
  [ Enum.Plain "Call_FUNC";
    Enum.Plain "GDK_1WINDOWING_1X11_FUNC";
    Enum.Plain "GInterfaceInfo_1sizeof_FUNC";
    Enum.Plain "GPollFD_1sizeof_FUNC";
    Enum.Plain "GTK_1ACCEL_1LABEL_1GET_1ACCEL_1STRING_FUNC";
    Enum.Plain "GTK_1ACCEL_1LABEL_1SET_1ACCEL_1STRING_FUNC";
    Enum.Plain "GTK_1ENTRY_1IM_1CONTEXT_FUNC";
    Enum.Plain "GTK_1SCROLLED_1WINDOW_1HSCROLLBAR_FUNC";
    Enum.Plain "GTK_1SCROLLED_1WINDOW_1SCROLLBAR_1SPACING_FUNC";
    Enum.Plain "GTK_1SCROLLED_1WINDOW_1VSCROLLBAR_FUNC";
    Enum.Plain "GTK_1TEXTVIEW_1IM_1CONTEXT_FUNC";
    Enum.Plain "GTK_1WIDGET_1HEIGHT_FUNC";
    Enum.Plain "GTK_1WIDGET_1REQUISITION_1HEIGHT_FUNC";
    Enum.Plain "GTK_1WIDGET_1REQUISITION_1WIDTH_FUNC";
    Enum.Plain "GTK_1WIDGET_1SET_1HEIGHT_FUNC";
    Enum.Plain "GTK_1WIDGET_1SET_1WIDTH_FUNC";
    Enum.Plain "GTK_1WIDGET_1SET_1X_FUNC";
    Enum.Plain "GTK_1WIDGET_1SET_1Y_FUNC";
    Enum.Plain "GTK_1WIDGET_1WIDTH_FUNC";
    Enum.Plain "GTK_1WIDGET_1WINDOW_FUNC";
    Enum.Plain "GTK_1WIDGET_1X_FUNC";
    Enum.Plain "GTK_1WIDGET_1Y_FUNC";
    Enum.Plain "GTypeInfo_1sizeof_FUNC";
    Enum.Plain "GTypeQuery_1sizeof_FUNC";
    Enum.Plain "GdkColor_1sizeof_FUNC";
    Enum.Plain "GdkDragContext_1sizeof_FUNC";
    Enum.Plain "GdkEventButton_1sizeof_FUNC";
    Enum.Plain "GdkEventCrossing_1sizeof_FUNC";
    Enum.Plain "GdkEventExpose_1sizeof_FUNC";
    Enum.Plain "GdkEventFocus_1sizeof_FUNC";
    Enum.Plain "GdkEventKey_1sizeof_FUNC";
    Enum.Plain "GdkEventMotion_1sizeof_FUNC";
    Enum.Plain "GdkEventScroll_1sizeof_FUNC";
    Enum.Plain "GdkEventVisibility_1sizeof_FUNC";
    Enum.Plain "GdkEventWindowState_1sizeof_FUNC";
    Enum.Plain "GdkEvent_1sizeof_FUNC";
    Enum.Plain "GdkGCValues_1sizeof_FUNC";
    Enum.Plain "GdkGeometry_1sizeof_FUNC";
    Enum.Plain "GdkImage_1sizeof_FUNC";
    Enum.Plain "GdkRectangle_1sizeof_FUNC";
    Enum.Plain "GdkVisual_1sizeof_FUNC";
    Enum.Plain "GdkWindowAttr_1sizeof_FUNC";
    Enum.Plain "GtkAdjustment_1sizeof_FUNC";
    Enum.Plain "GtkAllocation_1sizeof_FUNC";
    Enum.Plain "GtkBorder_1sizeof_FUNC";
    Enum.Plain "GtkColorSelectionDialog_1sizeof_FUNC";
    Enum.Plain "GtkCombo_1sizeof_FUNC";
    Enum.Plain "GtkFileSelection_1sizeof_FUNC";
    Enum.Plain "GtkFixedClass_1sizeof_FUNC";
    Enum.Plain "GtkFixed_1sizeof_FUNC";
    Enum.Plain "GtkRequisition_1sizeof_FUNC";
    Enum.Plain "GtkSelectionData_1sizeof_FUNC";
    Enum.Plain "GtkTargetEntry_1sizeof_FUNC";
    Enum.Plain "GtkTargetPair_1sizeof_FUNC";
    Enum.Plain "GtkTextIter_1sizeof_FUNC";
    Enum.Plain "GtkTreeIter_1sizeof_FUNC";
    Enum.Plain "PTR_1sizeof_FUNC";
    Enum.Plain "PangoAttribute_1sizeof_FUNC";
    Enum.Plain "PangoItem_1sizeof_FUNC";
    Enum.Plain "PangoLayoutLine_1sizeof_FUNC";
    Enum.Plain "PangoLayoutRun_1sizeof_FUNC";
    Enum.Plain "PangoLogAttr_1sizeof_FUNC";
    Enum.Plain "PangoRectangle_1sizeof_FUNC";
    Enum.Plain "XAnyEvent_1sizeof_FUNC";
    Enum.Plain "XButtonEvent_1sizeof_FUNC";
    Enum.Plain "XClientMessageEvent_1sizeof_FUNC";
    Enum.Plain "XCrossingEvent_1sizeof_FUNC";
    Enum.Plain "XEvent_1sizeof_FUNC";
    Enum.Plain "XExposeEvent_1sizeof_FUNC";
    Enum.Plain "XFocusChangeEvent_1sizeof_FUNC";
    Enum.Plain "XVisibilityEvent_1sizeof_FUNC";
    Enum.Plain "XWindowChanges_1sizeof_FUNC";
    Enum.Plain "_1Call_FUNC";
    Enum.Plain "_1GDK_1DISPLAY_FUNC";
    Enum.Plain "_1GDK_1PIXMAP_1XID_FUNC";
    Enum.Plain "_1GDK_1ROOT_1PARENT_FUNC";
    Enum.Plain "_1GDK_1TYPE_1COLOR_FUNC";
    Enum.Plain "_1GDK_1TYPE_1PIXBUF_FUNC";
    Enum.Plain "_1GTK_1IS_1BUTTON_FUNC";
    Enum.Plain "_1GTK_1IS_1CELL_1RENDERER_1PIXBUF_FUNC";
    Enum.Plain "_1GTK_1IS_1CELL_1RENDERER_1TEXT_FUNC";
    Enum.Plain "_1GTK_1IS_1CONTAINER_FUNC";
    Enum.Plain "_1GTK_1IS_1IMAGE_1MENU_1ITEM_FUNC";
    Enum.Plain "_1GTK_1STOCK_1CANCEL_FUNC";
    Enum.Plain "_1GTK_1STOCK_1OK_FUNC";
    Enum.Plain "_1GTK_1TYPE_1FIXED_FUNC";
    Enum.Plain "_1GTK_1WIDGET_1FLAGS_FUNC";
    Enum.Plain "_1GTK_1WIDGET_1HAS_1DEFAULT_FUNC";
    Enum.Plain "_1GTK_1WIDGET_1HAS_1FOCUS_FUNC";
    Enum.Plain "_1GTK_1WIDGET_1IS_1SENSITIVE_FUNC";
    Enum.Plain "_1GTK_1WIDGET_1MAPPED_FUNC";
    Enum.Plain "_1GTK_1WIDGET_1SENSITIVE_FUNC";
    Enum.Plain "_1GTK_1WIDGET_1SET_1FLAGS_FUNC";
    Enum.Plain "_1GTK_1WIDGET_1STATE_FUNC";
    Enum.Plain "_1GTK_1WIDGET_1UNSET_1FLAGS_FUNC";
    Enum.Plain "_1GTK_1WIDGET_1VISIBLE_FUNC";
    Enum.Plain "_1G_1OBJECT_1CLASS_FUNC";
    Enum.Plain "_1G_1OBJECT_1GET_1CLASS_FUNC";
    Enum.Plain "_1G_1OBJECT_1TYPE_FUNC";
    Enum.Plain "_1G_1TYPE_1BOOLEAN_FUNC";
    Enum.Plain "_1G_1TYPE_1INT_FUNC";
    Enum.Plain "_1G_1TYPE_1STRING_FUNC";
    Enum.Plain "_1PANGO_1PIXELS_FUNC";
    Enum.Plain "_1PANGO_1TYPE_1FONT_1DESCRIPTION_FUNC";
    Enum.Plain "_1XCheckIfEvent_FUNC";
    Enum.Plain "_1XCheckMaskEvent_FUNC";
    Enum.Plain "_1XCheckWindowEvent_FUNC";
    Enum.Plain "_1XDefaultRootWindow_FUNC";
    Enum.Plain "_1XDefaultScreen_FUNC";
    Enum.Plain "_1XFlush_FUNC";
    Enum.Plain "_1XFree_FUNC";
    Enum.Plain "_1XGetSelectionOwner_FUNC";
    Enum.Plain "_1XInternAtom_FUNC";
    Enum.Plain "_1XKeysymToKeycode_FUNC";
    Enum.Plain "_1XListProperties_FUNC";
    Enum.Plain "_1XQueryTree_FUNC";
    Enum.Plain "_1XReconfigureWMWindow_FUNC";
    Enum.Plain "_1XSendEvent_FUNC";
    Enum.Plain "_1XSetErrorHandler_FUNC";
    Enum.Plain "_1XSetIOErrorHandler_FUNC";
    Enum.Plain "_1XSetInputFocus_FUNC";
    Enum.Plain "_1XSynchronize_FUNC";
    Enum.Plain "_1XTestFakeButtonEvent_FUNC";
    Enum.Plain "_1XTestFakeKeyEvent_FUNC";
    Enum.Plain "_1XTestFakeMotionEvent_FUNC";
    Enum.Plain "_1XWarpPointer_FUNC";
    Enum.Plain "_1g_1filename_1from_1uri_FUNC";
    Enum.Plain "_1g_1filename_1from_1utf8_FUNC";
    Enum.Plain "_1g_1filename_1to_1uri_FUNC";
    Enum.Plain "_1g_1filename_1to_1utf8_FUNC";
    Enum.Plain "_1g_1free_FUNC";
    Enum.Plain "_1g_1list_1append_FUNC";
    Enum.Plain "_1g_1list_1data_FUNC";
    Enum.Plain "_1g_1list_1free_FUNC";
    Enum.Plain "_1g_1list_1free_11_FUNC";
    Enum.Plain "_1g_1list_1length_FUNC";
    Enum.Plain "_1g_1list_1next_FUNC";
    Enum.Plain "_1g_1list_1nth_FUNC";
    Enum.Plain "_1g_1list_1nth_1data_FUNC";
    Enum.Plain "_1g_1list_1prepend_FUNC";
    Enum.Plain "_1g_1list_1previous_FUNC";
    Enum.Plain "_1g_1list_1remove_1link_FUNC";
    Enum.Plain "_1g_1list_1reverse_FUNC";
    Enum.Plain "_1g_1list_1set_1next_FUNC";
    Enum.Plain "_1g_1list_1set_1previous_FUNC";
    Enum.Plain "_1g_1locale_1from_1utf8_FUNC";
    Enum.Plain "_1g_1locale_1to_1utf8_FUNC";
    Enum.Plain "_1g_1log_1default_1handler_FUNC";
    Enum.Plain "_1g_1log_1remove_1handler_FUNC";
    Enum.Plain "_1g_1log_1set_1handler_FUNC";
    Enum.Plain "_1g_1main_1context_1acquire_FUNC";
    Enum.Plain "_1g_1main_1context_1check_FUNC";
    Enum.Plain "_1g_1main_1context_1default_FUNC";
    Enum.Plain "_1g_1main_1context_1get_1poll_1func_FUNC";
    Enum.Plain "_1g_1main_1context_1iteration_FUNC";
    Enum.Plain "_1g_1main_1context_1pending_FUNC";
    Enum.Plain "_1g_1main_1context_1prepare_FUNC";
    Enum.Plain "_1g_1main_1context_1query_FUNC";
    Enum.Plain "_1g_1main_1context_1release_FUNC";
    Enum.Plain "_1g_1malloc_FUNC";
    Enum.Plain "_1g_1object_1get_FUNC";
    Enum.Plain "_1g_1object_1get_1qdata_FUNC";
    Enum.Plain "_1g_1object_1new_FUNC";
    Enum.Plain "_1g_1object_1ref_FUNC";
    Enum.Plain "_1g_1object_1set__I_3BFI_FUNC";
    Enum.Plain "_1g_1object_1set__I_3BII_FUNC";
    Enum.Plain "_1g_1object_1set__I_3BJI_FUNC";
    Enum.Plain "_1g_1object_1set__I_3BZI_FUNC";
    Enum.Plain "_1g_1object_1set_1qdata_FUNC";
    Enum.Plain "_1g_1object_1unref_FUNC";
    Enum.Plain "_1g_1quark_1from_1string_FUNC";
    Enum.Plain "_1g_1signal_1connect_FUNC";
    Enum.Plain "_1g_1signal_1connect_1after_FUNC";
    Enum.Plain "_1g_1signal_1emit_1by_1name__I_3B_FUNC";
    Enum.Plain "_1g_1signal_1emit_1by_1name__I_3BI_FUNC";
    Enum.Plain "_1g_1signal_1emit_1by_1name__I_3BII_FUNC";
    Enum.Plain "_1g_1signal_1emit_1by_1name__I_3B_3B_FUNC";
    Enum.Plain "_1g_1signal_1handler_1disconnect_FUNC";
    Enum.Plain "_1g_1signal_1handlers_1block_1matched_FUNC";
    Enum.Plain "_1g_1signal_1handlers_1disconnect_1matched_FUNC";
    Enum.Plain "_1g_1signal_1handlers_1unblock_1matched_FUNC";
    Enum.Plain "_1g_1signal_1lookup_FUNC";
    Enum.Plain "_1g_1signal_1stop_1emission_1by_1name_FUNC";
    Enum.Plain "_1g_1slist_1data_FUNC";
    Enum.Plain "_1g_1slist_1free_FUNC";
    Enum.Plain "_1g_1slist_1length_FUNC";
    Enum.Plain "_1g_1slist_1next_FUNC";
    Enum.Plain "_1g_1strfreev_FUNC";
    Enum.Plain "_1g_1thread_1init_FUNC";
    Enum.Plain "_1g_1thread_1supported_FUNC";
    Enum.Plain "_1g_1type_1add_1interface_1static_FUNC";
    Enum.Plain "_1g_1type_1class_1peek_FUNC";
    Enum.Plain "_1g_1type_1class_1peek_1parent_FUNC";
    Enum.Plain "_1g_1type_1from_1name_FUNC";
    Enum.Plain "_1g_1type_1interface_1peek_1parent_FUNC";
    Enum.Plain "_1g_1type_1is_1a_FUNC";
    Enum.Plain "_1g_1type_1name_FUNC";
    Enum.Plain "_1g_1type_1parent_FUNC";
    Enum.Plain "_1g_1type_1query_FUNC";
    Enum.Plain "_1g_1type_1register_1static_FUNC";
    Enum.Plain "_1g_1utf16_1to_1utf8_FUNC";
    Enum.Plain "_1g_1utf8_1offset_1to_1pointer_FUNC";
    Enum.Plain "_1g_1utf8_1pointer_1to_1offset_FUNC";
    Enum.Plain "_1g_1utf8_1strlen_FUNC";
    Enum.Plain "_1g_1utf8_1to_1utf16__II_3I_3I_3I_FUNC";
    Enum.Plain "_1g_1utf8_1to_1utf16___3BI_3I_3I_3I_FUNC";
    Enum.Plain "_1gdk_1atom_1intern_FUNC";
    Enum.Plain "_1gdk_1atom_1name_FUNC";
    Enum.Plain "_1gdk_1beep_FUNC";
    Enum.Plain "_1gdk_1bitmap_1create_1from_1data_FUNC";
    Enum.Plain "_1gdk_1color_1white_FUNC";
    Enum.Plain "_1gdk_1colormap_1alloc_1color_FUNC";
    Enum.Plain "_1gdk_1colormap_1free_1colors_FUNC";
    Enum.Plain "_1gdk_1colormap_1get_1system_FUNC";
    Enum.Plain "_1gdk_1colormap_1query_1color_FUNC";
    Enum.Plain "_1gdk_1cursor_1destroy_FUNC";
    Enum.Plain "_1gdk_1cursor_1new_FUNC";
    Enum.Plain "_1gdk_1cursor_1new_1from_1pixmap_FUNC";
    Enum.Plain "_1gdk_1drag_1status_FUNC";
    Enum.Plain "_1gdk_1draw_1arc_FUNC";
    Enum.Plain "_1gdk_1draw_1drawable_FUNC";
    Enum.Plain "_1gdk_1draw_1layout_FUNC";
    Enum.Plain "_1gdk_1draw_1layout_1with_1colors_FUNC";
    Enum.Plain "_1gdk_1draw_1line_FUNC";
    Enum.Plain "_1gdk_1draw_1lines_FUNC";
    Enum.Plain "_1gdk_1draw_1pixbuf_FUNC";
    Enum.Plain "_1gdk_1draw_1point_FUNC";
    Enum.Plain "_1gdk_1draw_1polygon_FUNC";
    Enum.Plain "_1gdk_1draw_1rectangle_FUNC";
    Enum.Plain "_1gdk_1drawable_1get_1image_FUNC";
    Enum.Plain "_1gdk_1drawable_1get_1size_FUNC";
    Enum.Plain "_1gdk_1drawable_1get_1visible_1region_FUNC";
    Enum.Plain "_1gdk_1error_1trap_1pop_FUNC";
    Enum.Plain "_1gdk_1error_1trap_1push_FUNC";
    Enum.Plain "_1gdk_1event_1copy_FUNC";
    Enum.Plain "_1gdk_1event_1free_FUNC";
    Enum.Plain "_1gdk_1event_1get_FUNC";
    Enum.Plain "_1gdk_1event_1get_1coords_FUNC";
    Enum.Plain "_1gdk_1event_1get_1graphics_1expose_FUNC";
    Enum.Plain "_1gdk_1event_1get_1root_1coords_FUNC";
    Enum.Plain "_1gdk_1event_1get_1state_FUNC";
    Enum.Plain "_1gdk_1event_1get_1time_FUNC";
    Enum.Plain "_1gdk_1event_1handler_1set_FUNC";
    Enum.Plain "_1gdk_1event_1put_FUNC";
    Enum.Plain "_1gdk_1flush_FUNC";
    Enum.Plain "_1gdk_1free_1text_1list_FUNC";
    Enum.Plain "_1gdk_1gc_1get_1values_FUNC";
    Enum.Plain "_1gdk_1gc_1new_FUNC";
    Enum.Plain "_1gdk_1gc_1set_1background_FUNC";
    Enum.Plain "_1gdk_1gc_1set_1clip_1mask_FUNC";
    Enum.Plain "_1gdk_1gc_1set_1clip_1origin_FUNC";
    Enum.Plain "_1gdk_1gc_1set_1clip_1rectangle_FUNC";
    Enum.Plain "_1gdk_1gc_1set_1clip_1region_FUNC";
    Enum.Plain "_1gdk_1gc_1set_1dashes_FUNC";
    Enum.Plain "_1gdk_1gc_1set_1exposures_FUNC";
    Enum.Plain "_1gdk_1gc_1set_1fill_FUNC";
    Enum.Plain "_1gdk_1gc_1set_1foreground_FUNC";
    Enum.Plain "_1gdk_1gc_1set_1function_FUNC";
    Enum.Plain "_1gdk_1gc_1set_1line_1attributes_FUNC";
    Enum.Plain "_1gdk_1gc_1set_1stipple_FUNC";
    Enum.Plain "_1gdk_1gc_1set_1subwindow_FUNC";
    Enum.Plain "_1gdk_1gc_1set_1values_FUNC";
    Enum.Plain "_1gdk_1image_1get_FUNC";
    Enum.Plain "_1gdk_1image_1get_1pixel_FUNC";
    Enum.Plain "_1gdk_1keyboard_1ungrab_FUNC";
    Enum.Plain "_1gdk_1keymap_1get_1default_FUNC";
    Enum.Plain "_1gdk_1keymap_1translate_1keyboard_1state_FUNC";
    Enum.Plain "_1gdk_1keyval_1to_1lower_FUNC";
    Enum.Plain "_1gdk_1keyval_1to_1unicode_FUNC";
    Enum.Plain "_1gdk_1pango_1context_1get_FUNC";
    Enum.Plain "_1gdk_1pango_1context_1set_1colormap_FUNC";
    Enum.Plain "_1gdk_1pango_1layout_1get_1clip_1region_FUNC";
    Enum.Plain "_1gdk_1pixbuf_1get_1from_1drawable_FUNC";
    Enum.Plain "_1gdk_1pixbuf_1get_1has_1alpha_FUNC";
    Enum.Plain "_1gdk_1pixbuf_1get_1height_FUNC";
    Enum.Plain "_1gdk_1pixbuf_1get_1pixels_FUNC";
    Enum.Plain "_1gdk_1pixbuf_1get_1rowstride_FUNC";
    Enum.Plain "_1gdk_1pixbuf_1get_1width_FUNC";
    Enum.Plain "_1gdk_1pixbuf_1new_FUNC";
    Enum.Plain "_1gdk_1pixbuf_1render_1pixmap_1and_1mask_FUNC";
    Enum.Plain "_1gdk_1pixbuf_1render_1to_1drawable_FUNC";
    Enum.Plain "_1gdk_1pixbuf_1render_1to_1drawable_1alpha_FUNC";
    Enum.Plain "_1gdk_1pixbuf_1scale_FUNC";
    Enum.Plain "_1gdk_1pixbuf_1scale_1simple_FUNC";
    Enum.Plain "_1gdk_1pixmap_1foreign_1new_FUNC";
    Enum.Plain "_1gdk_1pixmap_1new_FUNC";
    Enum.Plain "_1gdk_1pointer_1grab_FUNC";
    Enum.Plain "_1gdk_1pointer_1is_1grabbed_FUNC";
    Enum.Plain "_1gdk_1pointer_1ungrab_FUNC";
    Enum.Plain "_1gdk_1property_1get_FUNC";
    Enum.Plain "_1gdk_1region_1destroy_FUNC";
    Enum.Plain "_1gdk_1region_1empty_FUNC";
    Enum.Plain "_1gdk_1region_1get_1clipbox_FUNC";
    Enum.Plain "_1gdk_1region_1get_1rectangles_FUNC";
    Enum.Plain "_1gdk_1region_1intersect_FUNC";
    Enum.Plain "_1gdk_1region_1new_FUNC";
    Enum.Plain "_1gdk_1region_1offset_FUNC";
    Enum.Plain "_1gdk_1region_1point_1in_FUNC";
    Enum.Plain "_1gdk_1region_1polygon_FUNC";
    Enum.Plain "_1gdk_1region_1rect_1in_FUNC";
    Enum.Plain "_1gdk_1region_1rectangle_FUNC";
    Enum.Plain "_1gdk_1region_1subtract_FUNC";
    Enum.Plain "_1gdk_1region_1union_FUNC";
    Enum.Plain "_1gdk_1region_1union_1with_1rect_FUNC";
    Enum.Plain "_1gdk_1rgb_1init_FUNC";
    Enum.Plain "_1gdk_1screen_1get_1default_FUNC";
    Enum.Plain "_1gdk_1screen_1get_1monitor_1at_1window_FUNC";
    Enum.Plain "_1gdk_1screen_1get_1monitor_1geometry_FUNC";
    Enum.Plain "_1gdk_1screen_1get_1n_1monitors_FUNC";
    Enum.Plain "_1gdk_1screen_1get_1number_FUNC";
    Enum.Plain "_1gdk_1screen_1height_FUNC";
    Enum.Plain "_1gdk_1screen_1width_FUNC";
    Enum.Plain "_1gdk_1screen_1width_1mm_FUNC";
    Enum.Plain "_1gdk_1set_1program_1class_FUNC";
    Enum.Plain "_1gdk_1text_1property_1to_1utf8_1list_FUNC";
    Enum.Plain "_1gdk_1unicode_1to_1keyval_FUNC";
    Enum.Plain "_1gdk_1utf8_1to_1compound_1text_FUNC";
    Enum.Plain "_1gdk_1visual_1get_1system_FUNC";
    Enum.Plain "_1gdk_1window_1add_1filter_FUNC";
    Enum.Plain "_1gdk_1window_1at_1pointer_FUNC";
    Enum.Plain "_1gdk_1window_1begin_1paint_1rect_FUNC";
    Enum.Plain "_1gdk_1window_1destroy_FUNC";
    Enum.Plain "_1gdk_1window_1end_1paint_FUNC";
    Enum.Plain "_1gdk_1window_1focus_FUNC";
    Enum.Plain "_1gdk_1window_1freeze_1updates_FUNC";
    Enum.Plain "_1gdk_1window_1get_1children_FUNC";
    Enum.Plain "_1gdk_1window_1get_1events_FUNC";
    Enum.Plain "_1gdk_1window_1get_1frame_1extents_FUNC";
    Enum.Plain "_1gdk_1window_1get_1internal_1paint_1info_FUNC";
    Enum.Plain "_1gdk_1window_1get_1origin_FUNC";
    Enum.Plain "_1gdk_1window_1get_1parent_FUNC";
    Enum.Plain "_1gdk_1window_1get_1pointer_FUNC";
    Enum.Plain "_1gdk_1window_1get_1user_1data_FUNC";
    Enum.Plain "_1gdk_1window_1hide_FUNC";
    Enum.Plain "_1gdk_1window_1invalidate_1rect_FUNC";
    Enum.Plain "_1gdk_1window_1invalidate_1region_FUNC";
    Enum.Plain "_1gdk_1window_1lookup_FUNC";
    Enum.Plain "_1gdk_1window_1lower_FUNC";
    Enum.Plain "_1gdk_1window_1move_FUNC";
    Enum.Plain "_1gdk_1window_1new_FUNC";
    Enum.Plain "_1gdk_1window_1process_1all_1updates_FUNC";
    Enum.Plain "_1gdk_1window_1process_1updates_FUNC";
    Enum.Plain "_1gdk_1window_1raise_FUNC";
    Enum.Plain "_1gdk_1window_1remove_1filter_FUNC";
    Enum.Plain "_1gdk_1window_1resize_FUNC";
    Enum.Plain "_1gdk_1window_1scroll_FUNC";
    Enum.Plain "_1gdk_1window_1set_1accept_1focus_FUNC";
    Enum.Plain "_1gdk_1window_1set_1back_1pixmap_FUNC";
    Enum.Plain "_1gdk_1window_1set_1cursor_FUNC";
    Enum.Plain "_1gdk_1window_1set_1decorations_FUNC";
    Enum.Plain "_1gdk_1window_1set_1events_FUNC";
    Enum.Plain "_1gdk_1window_1set_1icon_FUNC";
    Enum.Plain "_1gdk_1window_1set_1icon_1list_FUNC";
    Enum.Plain "_1gdk_1window_1set_1keep_1above_FUNC";
    Enum.Plain "_1gdk_1window_1set_1override_1redirect_FUNC";
    Enum.Plain "_1gdk_1window_1set_1user_1data_FUNC";
    Enum.Plain "_1gdk_1window_1shape_1combine_1region_FUNC";
    Enum.Plain "_1gdk_1window_1show_FUNC";
    Enum.Plain "_1gdk_1window_1show_1unraised_FUNC";
    Enum.Plain "_1gdk_1window_1thaw_1updates_FUNC";
    Enum.Plain "_1gdk_1x11_1atom_1to_1xatom_FUNC";
    Enum.Plain "_1gdk_1x11_1colormap_1get_1xcolormap_FUNC";
    Enum.Plain "_1gdk_1x11_1drawable_1get_1xdisplay_FUNC";
    Enum.Plain "_1gdk_1x11_1drawable_1get_1xid_FUNC";
    Enum.Plain "_1gdk_1x11_1visual_1get_1xvisual_FUNC";
    Enum.Plain "_1gtk_1accel_1group_1new_FUNC";
    Enum.Plain "_1gtk_1accel_1groups_1activate_FUNC";
    Enum.Plain "_1gtk_1accel_1label_1set_1accel_1widget_FUNC";
    Enum.Plain "_1gtk_1adjustment_1changed_FUNC";
    Enum.Plain "_1gtk_1adjustment_1new_FUNC";
    Enum.Plain "_1gtk_1adjustment_1set_1value_FUNC";
    Enum.Plain "_1gtk_1adjustment_1value_1changed_FUNC";
    Enum.Plain "_1gtk_1arrow_1new_FUNC";
    Enum.Plain "_1gtk_1arrow_1set_FUNC";
    Enum.Plain "_1gtk_1bin_1get_1child_FUNC";
    Enum.Plain "_1gtk_1box_1set_1child_1packing_FUNC";
    Enum.Plain "_1gtk_1button_1clicked_FUNC";
    Enum.Plain "_1gtk_1button_1new_FUNC";
    Enum.Plain "_1gtk_1button_1set_1relief_FUNC";
    Enum.Plain "_1gtk_1cell_1renderer_1get_1size_FUNC";
    Enum.Plain "_1gtk_1cell_1renderer_1pixbuf_1new_FUNC";
    Enum.Plain "_1gtk_1cell_1renderer_1text_1new_FUNC";
    Enum.Plain "_1gtk_1cell_1renderer_1toggle_1new_FUNC";
    Enum.Plain "_1gtk_1check_1button_1new_FUNC";
    Enum.Plain "_1gtk_1check_1menu_1item_1get_1active_FUNC";
    Enum.Plain "_1gtk_1check_1menu_1item_1new_1with_1label_FUNC";
    Enum.Plain "_1gtk_1check_1menu_1item_1set_1active_FUNC";
    Enum.Plain "_1gtk_1check_1version_FUNC";
    Enum.Plain "_1gtk_1clipboard_1clear_FUNC";
    Enum.Plain "_1gtk_1clipboard_1get_FUNC";
    Enum.Plain "_1gtk_1clipboard_1set_1with_1data_FUNC";
    Enum.Plain "_1gtk_1clipboard_1wait_1for_1contents_FUNC";
    Enum.Plain "_1gtk_1color_1selection_1dialog_1new_FUNC";
    Enum.Plain "_1gtk_1color_1selection_1get_1current_1color_FUNC";
    Enum.Plain "_1gtk_1color_1selection_1set_1current_1color_FUNC";
    Enum.Plain "_1gtk_1color_1selection_1set_1has_1palette_FUNC";
    Enum.Plain "_1gtk_1combo_1disable_1activate_FUNC";
    Enum.Plain "_1gtk_1combo_1new_FUNC";
    Enum.Plain "_1gtk_1combo_1set_1case_1sensitive_FUNC";
    Enum.Plain "_1gtk_1combo_1set_1popdown_1strings_FUNC";
    Enum.Plain "_1gtk_1container_1add_FUNC";
    Enum.Plain "_1gtk_1container_1forall_FUNC";
    Enum.Plain "_1gtk_1container_1get_1border_1width_FUNC";
    Enum.Plain "_1gtk_1container_1get_1children_FUNC";
    Enum.Plain "_1gtk_1container_1remove_FUNC";
    Enum.Plain "_1gtk_1container_1resize_1children_FUNC";
    Enum.Plain "_1gtk_1container_1set_1border_1width_FUNC";
    Enum.Plain "_1gtk_1dialog_1add_1button_FUNC";
    Enum.Plain "_1gtk_1dialog_1run_FUNC";
    Enum.Plain "_1gtk_1drag_1begin_FUNC";
    Enum.Plain "_1gtk_1drag_1check_1threshold_FUNC";
    Enum.Plain "_1gtk_1drag_1dest_1find_1target_FUNC";
    Enum.Plain "_1gtk_1drag_1dest_1set_FUNC";
    Enum.Plain "_1gtk_1drag_1dest_1unset_FUNC";
    Enum.Plain "_1gtk_1drag_1finish_FUNC";
    Enum.Plain "_1gtk_1drag_1get_1data_FUNC";
    Enum.Plain "_1gtk_1drawing_1area_1new_FUNC";
    Enum.Plain "_1gtk_1editable_1copy_1clipboard_FUNC";
    Enum.Plain "_1gtk_1editable_1cut_1clipboard_FUNC";
    Enum.Plain "_1gtk_1editable_1delete_1selection_FUNC";
    Enum.Plain "_1gtk_1editable_1delete_1text_FUNC";
    Enum.Plain "_1gtk_1editable_1get_1chars_FUNC";
    Enum.Plain "_1gtk_1editable_1get_1editable_FUNC";
    Enum.Plain "_1gtk_1editable_1get_1position_FUNC";
    Enum.Plain "_1gtk_1editable_1get_1selection_1bounds_FUNC";
    Enum.Plain "_1gtk_1editable_1insert_1text_FUNC";
    Enum.Plain "_1gtk_1editable_1paste_1clipboard_FUNC";
    Enum.Plain "_1gtk_1editable_1select_1region_FUNC";
    Enum.Plain "_1gtk_1editable_1set_1editable_FUNC";
    Enum.Plain "_1gtk_1editable_1set_1position_FUNC";
    Enum.Plain "_1gtk_1entry_1get_1invisible_1char_FUNC";
    Enum.Plain "_1gtk_1entry_1get_1layout_FUNC";
    Enum.Plain "_1gtk_1entry_1get_1max_1length_FUNC";
    Enum.Plain "_1gtk_1entry_1get_1text_FUNC";
    Enum.Plain "_1gtk_1entry_1get_1visibility_FUNC";
    Enum.Plain "_1gtk_1entry_1new_FUNC";
    Enum.Plain "_1gtk_1entry_1set_1activates_1default_FUNC";
    Enum.Plain "_1gtk_1entry_1set_1alignment_FUNC";
    Enum.Plain "_1gtk_1entry_1set_1has_1frame_FUNC";
    Enum.Plain "_1gtk_1entry_1set_1invisible_1char_FUNC";
    Enum.Plain "_1gtk_1entry_1set_1max_1length_FUNC";
    Enum.Plain "_1gtk_1entry_1set_1text_FUNC";
    Enum.Plain "_1gtk_1entry_1set_1visibility_FUNC";
    Enum.Plain "_1gtk_1events_1pending_FUNC";
    Enum.Plain "_1gtk_1file_1chooser_1add_1filter_FUNC";
    Enum.Plain "_1gtk_1file_1chooser_1dialog_1new_FUNC";
    Enum.Plain "_1gtk_1file_1chooser_1get_1current_1folder_FUNC";
    Enum.Plain "_1gtk_1file_1chooser_1get_1filename_FUNC";
    Enum.Plain "_1gtk_1file_1chooser_1get_1filenames_FUNC";
    Enum.Plain "_1gtk_1file_1chooser_1set_1current_1folder_FUNC";
    Enum.Plain "_1gtk_1file_1chooser_1set_1current_1name_FUNC";
    Enum.Plain "_1gtk_1file_1chooser_1set_1extra_1widget_FUNC";
    Enum.Plain "_1gtk_1file_1chooser_1set_1filename_FUNC";
    Enum.Plain "_1gtk_1file_1chooser_1set_1select_1multiple_FUNC";
    Enum.Plain "_1gtk_1file_1filter_1add_1pattern_FUNC";
    Enum.Plain "_1gtk_1file_1filter_1new_FUNC";
    Enum.Plain "_1gtk_1file_1filter_1set_1name_FUNC";
    Enum.Plain "_1gtk_1file_1selection_1get_1filename_FUNC";
    Enum.Plain "_1gtk_1file_1selection_1get_1selections_FUNC";
    Enum.Plain "_1gtk_1file_1selection_1hide_1fileop_1buttons_FUNC";
    Enum.Plain "_1gtk_1file_1selection_1new_FUNC";
    Enum.Plain "_1gtk_1file_1selection_1set_1filename_FUNC";
    Enum.Plain "_1gtk_1file_1selection_1set_1select_1multiple_FUNC";
    Enum.Plain "_1gtk_1fixed_1move_FUNC";
    Enum.Plain "_1gtk_1fixed_1new_FUNC";
    Enum.Plain "_1gtk_1fixed_1set_1has_1window_FUNC";
    Enum.Plain "_1gtk_1font_1selection_1dialog_1get_1font_1name_FUNC";
    Enum.Plain "_1gtk_1font_1selection_1dialog_1new_FUNC";
    Enum.Plain "_1gtk_1font_1selection_1dialog_1set_1font_1name_FUNC";
    Enum.Plain "_1gtk_1frame_1get_1label_1widget_FUNC";
    Enum.Plain "_1gtk_1frame_1new_FUNC";
    Enum.Plain "_1gtk_1frame_1set_1label_FUNC";
    Enum.Plain "_1gtk_1frame_1set_1label_1widget_FUNC";
    Enum.Plain "_1gtk_1frame_1set_1shadow_1type_FUNC";
    Enum.Plain "_1gtk_1get_1current_1event_FUNC";
    Enum.Plain "_1gtk_1get_1current_1event_1state_FUNC";
    Enum.Plain "_1gtk_1get_1current_1event_1time_FUNC";
    Enum.Plain "_1gtk_1get_1default_1language_FUNC";
    Enum.Plain "_1gtk_1get_1event_1widget_FUNC";
    Enum.Plain "_1gtk_1grab_1add_FUNC";
    Enum.Plain "_1gtk_1grab_1get_1current_FUNC";
    Enum.Plain "_1gtk_1grab_1remove_FUNC";
    Enum.Plain "_1gtk_1hbox_1new_FUNC";
    Enum.Plain "_1gtk_1hscale_1new_FUNC";
    Enum.Plain "_1gtk_1hscrollbar_1new_FUNC";
    Enum.Plain "_1gtk_1hseparator_1new_FUNC";
    Enum.Plain "_1gtk_1icon_1factory_1lookup_1default_FUNC";
    Enum.Plain "_1gtk_1icon_1set_1render_1icon_FUNC";
    Enum.Plain "_1gtk_1im_1context_1filter_1keypress_FUNC";
    Enum.Plain "_1gtk_1im_1context_1focus_1in_FUNC";
    Enum.Plain "_1gtk_1im_1context_1focus_1out_FUNC";
    Enum.Plain "_1gtk_1im_1context_1get_1preedit_1string_FUNC";
    Enum.Plain "_1gtk_1im_1context_1get_1type_FUNC";
    Enum.Plain "_1gtk_1im_1context_1reset_FUNC";
    Enum.Plain "_1gtk_1im_1context_1set_1client_1window_FUNC";
    Enum.Plain "_1gtk_1im_1context_1set_1cursor_1location_FUNC";
    Enum.Plain "_1gtk_1im_1multicontext_1append_1menuitems_FUNC";
    Enum.Plain "_1gtk_1im_1multicontext_1new_FUNC";
    Enum.Plain "_1gtk_1image_1menu_1item_1new_1with_1label_FUNC";
    Enum.Plain "_1gtk_1image_1menu_1item_1set_1image_FUNC";
    Enum.Plain "_1gtk_1image_1new_FUNC";
    Enum.Plain "_1gtk_1image_1new_1from_1pixbuf_FUNC";
    Enum.Plain "_1gtk_1image_1new_1from_1pixmap_FUNC";
    Enum.Plain "_1gtk_1image_1set_1from_1pixbuf_FUNC";
    Enum.Plain "_1gtk_1image_1set_1from_1pixmap_FUNC";
    Enum.Plain "_1gtk_1init_1check_FUNC";
    Enum.Plain "_1gtk_1label_1get_1mnemonic_1keyval_FUNC";
    Enum.Plain "_1gtk_1label_1new_FUNC";
    Enum.Plain "_1gtk_1label_1new_1with_1mnemonic_FUNC";
    Enum.Plain "_1gtk_1label_1set_1attributes_FUNC";
    Enum.Plain "_1gtk_1label_1set_1justify_FUNC";
    Enum.Plain "_1gtk_1label_1set_1line_1wrap_FUNC";
    Enum.Plain "_1gtk_1label_1set_1text__II_FUNC";
    Enum.Plain "_1gtk_1label_1set_1text__I_3B_FUNC";
    Enum.Plain "_1gtk_1label_1set_1text_1with_1mnemonic_FUNC";
    Enum.Plain "_1gtk_1list_1append_1items_FUNC";
    Enum.Plain "_1gtk_1list_1clear_1items_FUNC";
    Enum.Plain "_1gtk_1list_1insert_1items_FUNC";
    Enum.Plain "_1gtk_1list_1item_1new_1with_1label_FUNC";
    Enum.Plain "_1gtk_1list_1remove_1items_FUNC";
    Enum.Plain "_1gtk_1list_1select_1item_FUNC";
    Enum.Plain "_1gtk_1list_1store_1append_FUNC";
    Enum.Plain "_1gtk_1list_1store_1clear_FUNC";
    Enum.Plain "_1gtk_1list_1store_1insert_FUNC";
    Enum.Plain "_1gtk_1list_1store_1newv_FUNC";
    Enum.Plain "_1gtk_1list_1store_1remove_FUNC";
    Enum.Plain "_1gtk_1list_1store_1set__IIIII_FUNC";
    Enum.Plain "_1gtk_1list_1store_1set__IIIJI_FUNC";
    Enum.Plain "_1gtk_1list_1store_1set__IIILorg_eclipse_swt_internal_gtk_GdkColor_2I_FUNC";
    Enum.Plain "_1gtk_1list_1store_1set__IIIZI_FUNC";
    Enum.Plain "_1gtk_1list_1store_1set__III_3BI_FUNC";
    Enum.Plain "_1gtk_1list_1unselect_1all_FUNC";
    Enum.Plain "_1gtk_1list_1unselect_1item_FUNC";
    Enum.Plain "_1gtk_1main_FUNC";
    Enum.Plain "_1gtk_1main_1do_1event_FUNC";
    Enum.Plain "_1gtk_1main_1iteration_FUNC";
    Enum.Plain "_1gtk_1major_1version_FUNC";
    Enum.Plain "_1gtk_1menu_1bar_1new_FUNC";
    Enum.Plain "_1gtk_1menu_1item_1remove_1submenu_FUNC";
    Enum.Plain "_1gtk_1menu_1item_1set_1submenu_FUNC";
    Enum.Plain "_1gtk_1menu_1new_FUNC";
    Enum.Plain "_1gtk_1menu_1popdown_FUNC";
    Enum.Plain "_1gtk_1menu_1popup_FUNC";
    Enum.Plain "_1gtk_1menu_1shell_1deactivate_FUNC";
    Enum.Plain "_1gtk_1menu_1shell_1insert_FUNC";
    Enum.Plain "_1gtk_1menu_1shell_1select_1item_FUNC";
    Enum.Plain "_1gtk_1message_1dialog_1new_FUNC";
    Enum.Plain "_1gtk_1micro_1version_FUNC";
    Enum.Plain "_1gtk_1minor_1version_FUNC";
    Enum.Plain "_1gtk_1misc_1set_1alignment_FUNC";
    Enum.Plain "_1gtk_1notebook_1get_1current_1page_FUNC";
    Enum.Plain "_1gtk_1notebook_1get_1scrollable_FUNC";
    Enum.Plain "_1gtk_1notebook_1insert_1page_FUNC";
    Enum.Plain "_1gtk_1notebook_1new_FUNC";
    Enum.Plain "_1gtk_1notebook_1remove_1page_FUNC";
    Enum.Plain "_1gtk_1notebook_1set_1current_1page_FUNC";
    Enum.Plain "_1gtk_1notebook_1set_1scrollable_FUNC";
    Enum.Plain "_1gtk_1notebook_1set_1show_1tabs_FUNC";
    Enum.Plain "_1gtk_1notebook_1set_1tab_1pos_FUNC";
    Enum.Plain "_1gtk_1object_1sink_FUNC";
    Enum.Plain "_1gtk_1paint_1focus_FUNC";
    Enum.Plain "_1gtk_1paint_1handle_FUNC";
    Enum.Plain "_1gtk_1plug_1get_1id_FUNC";
    Enum.Plain "_1gtk_1plug_1new_FUNC";
    Enum.Plain "_1gtk_1progress_1bar_1new_FUNC";
    Enum.Plain "_1gtk_1progress_1bar_1pulse_FUNC";
    Enum.Plain "_1gtk_1progress_1bar_1set_1fraction_FUNC";
    Enum.Plain "_1gtk_1progress_1bar_1set_1orientation_FUNC";
    Enum.Plain "_1gtk_1radio_1button_1get_1group_FUNC";
    Enum.Plain "_1gtk_1radio_1button_1new_FUNC";
    Enum.Plain "_1gtk_1radio_1menu_1item_1get_1group_FUNC";
    Enum.Plain "_1gtk_1radio_1menu_1item_1new_FUNC";
    Enum.Plain "_1gtk_1radio_1menu_1item_1new_1with_1label_FUNC";
    Enum.Plain "_1gtk_1range_1get_1adjustment_FUNC";
    Enum.Plain "_1gtk_1range_1set_1increments_FUNC";
    Enum.Plain "_1gtk_1range_1set_1inverted_FUNC";
    Enum.Plain "_1gtk_1range_1set_1range_FUNC";
    Enum.Plain "_1gtk_1range_1set_1value_FUNC";
    Enum.Plain "_1gtk_1rc_1parse_1string_FUNC";
    Enum.Plain "_1gtk_1rc_1style_1get_1bg_1pixmap_1name_FUNC";
    Enum.Plain "_1gtk_1rc_1style_1get_1color_1flags_FUNC";
    Enum.Plain "_1gtk_1rc_1style_1set_1bg_FUNC";
    Enum.Plain "_1gtk_1rc_1style_1set_1bg_1pixmap_1name_FUNC";
    Enum.Plain "_1gtk_1rc_1style_1set_1color_1flags_FUNC";
    Enum.Plain "_1gtk_1scale_1set_1digits_FUNC";
    Enum.Plain "_1gtk_1scale_1set_1draw_1value_FUNC";
    Enum.Plain "_1gtk_1scrolled_1window_1get_1hadjustment_FUNC";
    Enum.Plain "_1gtk_1scrolled_1window_1get_1policy_FUNC";
    Enum.Plain "_1gtk_1scrolled_1window_1get_1shadow_1type_FUNC";
    Enum.Plain "_1gtk_1scrolled_1window_1get_1vadjustment_FUNC";
    Enum.Plain "_1gtk_1scrolled_1window_1new_FUNC";
    Enum.Plain "_1gtk_1scrolled_1window_1set_1placement_FUNC";
    Enum.Plain "_1gtk_1scrolled_1window_1set_1policy_FUNC";
    Enum.Plain "_1gtk_1scrolled_1window_1set_1shadow_1type_FUNC";
    Enum.Plain "_1gtk_1selection_1data_1free_FUNC";
    Enum.Plain "_1gtk_1selection_1data_1set_FUNC";
    Enum.Plain "_1gtk_1separator_1menu_1item_1new_FUNC";
    Enum.Plain "_1gtk_1set_1locale_FUNC";
    Enum.Plain "_1gtk_1settings_1get_1default_FUNC";
    Enum.Plain "_1gtk_1socket_1get_1id_FUNC";
    Enum.Plain "_1gtk_1socket_1new_FUNC";
    Enum.Plain "_1gtk_1spin_1button_1get_1adjustment_FUNC";
    Enum.Plain "_1gtk_1spin_1button_1get_1digits_FUNC";
    Enum.Plain "_1gtk_1spin_1button_1new_FUNC";
    Enum.Plain "_1gtk_1spin_1button_1set_1digits_FUNC";
    Enum.Plain "_1gtk_1spin_1button_1set_1increments_FUNC";
    Enum.Plain "_1gtk_1spin_1button_1set_1range_FUNC";
    Enum.Plain "_1gtk_1spin_1button_1set_1value_FUNC";
    Enum.Plain "_1gtk_1spin_1button_1set_1wrap_FUNC";
    Enum.Plain "_1gtk_1style_1get_1base_FUNC";
    Enum.Plain "_1gtk_1style_1get_1bg_FUNC";
    Enum.Plain "_1gtk_1style_1get_1black_FUNC";
    Enum.Plain "_1gtk_1style_1get_1dark_FUNC";
    Enum.Plain "_1gtk_1style_1get_1fg_FUNC";
    Enum.Plain "_1gtk_1style_1get_1font_1desc_FUNC";
    Enum.Plain "_1gtk_1style_1get_1light_FUNC";
    Enum.Plain "_1gtk_1style_1get_1text_FUNC";
    Enum.Plain "_1gtk_1style_1get_1xthickness_FUNC";
    Enum.Plain "_1gtk_1style_1get_1ythickness_FUNC";
    Enum.Plain "_1gtk_1target_1list_1new_FUNC";
    Enum.Plain "_1gtk_1target_1list_1unref_FUNC";
    Enum.Plain "_1gtk_1text_1buffer_1copy_1clipboard_FUNC";
    Enum.Plain "_1gtk_1text_1buffer_1cut_1clipboard_FUNC";
    Enum.Plain "_1gtk_1text_1buffer_1delete_FUNC";
    Enum.Plain "_1gtk_1text_1buffer_1get_1bounds_FUNC";
    Enum.Plain "_1gtk_1text_1buffer_1get_1char_1count_FUNC";
    Enum.Plain "_1gtk_1text_1buffer_1get_1end_1iter_FUNC";
    Enum.Plain "_1gtk_1text_1buffer_1get_1insert_FUNC";
    Enum.Plain "_1gtk_1text_1buffer_1get_1iter_1at_1line_FUNC";
    Enum.Plain "_1gtk_1text_1buffer_1get_1iter_1at_1mark_FUNC";
    Enum.Plain "_1gtk_1text_1buffer_1get_1iter_1at_1offset_FUNC";
    Enum.Plain "_1gtk_1text_1buffer_1get_1line_1count_FUNC";
    Enum.Plain "_1gtk_1text_1buffer_1get_1selection_1bound_FUNC";
    Enum.Plain "_1gtk_1text_1buffer_1get_1selection_1bounds_FUNC";
    Enum.Plain "_1gtk_1text_1buffer_1get_1text_FUNC";
    Enum.Plain "_1gtk_1text_1buffer_1insert__II_3BI_FUNC";
    Enum.Plain "_1gtk_1text_1buffer_1insert__I_3B_3BI_FUNC";
    Enum.Plain "_1gtk_1text_1buffer_1move_1mark_FUNC";
    Enum.Plain "_1gtk_1text_1buffer_1paste_1clipboard_FUNC";
    Enum.Plain "_1gtk_1text_1buffer_1place_1cursor_FUNC";
    Enum.Plain "_1gtk_1text_1buffer_1set_1text_FUNC";
    Enum.Plain "_1gtk_1text_1iter_1get_1line_FUNC";
    Enum.Plain "_1gtk_1text_1iter_1get_1offset_FUNC";
    Enum.Plain "_1gtk_1text_1view_1buffer_1to_1window_1coords_FUNC";
    Enum.Plain "_1gtk_1text_1view_1get_1buffer_FUNC";
    Enum.Plain "_1gtk_1text_1view_1get_1editable_FUNC";
    Enum.Plain "_1gtk_1text_1view_1get_1iter_1at_1location_FUNC";
    Enum.Plain "_1gtk_1text_1view_1get_1iter_1location_FUNC";
    Enum.Plain "_1gtk_1text_1view_1get_1line_1at_1y_FUNC";
    Enum.Plain "_1gtk_1text_1view_1get_1visible_1rect_FUNC";
    Enum.Plain "_1gtk_1text_1view_1get_1window_FUNC";
    Enum.Plain "_1gtk_1text_1view_1new_FUNC";
    Enum.Plain "_1gtk_1text_1view_1scroll_1mark_1onscreen_FUNC";
    Enum.Plain "_1gtk_1text_1view_1scroll_1to_1iter_FUNC";
    Enum.Plain "_1gtk_1text_1view_1set_1editable_FUNC";
    Enum.Plain "_1gtk_1text_1view_1set_1justification_FUNC";
    Enum.Plain "_1gtk_1text_1view_1set_1tabs_FUNC";
    Enum.Plain "_1gtk_1text_1view_1set_1wrap_1mode_FUNC";
    Enum.Plain "_1gtk_1text_1view_1window_1to_1buffer_1coords_FUNC";
    Enum.Plain "_1gtk_1timeout_1add_FUNC";
    Enum.Plain "_1gtk_1timeout_1remove_FUNC";
    Enum.Plain "_1gtk_1toggle_1button_1get_1active_FUNC";
    Enum.Plain "_1gtk_1toggle_1button_1new_FUNC";
    Enum.Plain "_1gtk_1toggle_1button_1set_1active_FUNC";
    Enum.Plain "_1gtk_1toggle_1button_1set_1mode_FUNC";
    Enum.Plain "_1gtk_1toolbar_1insert_1widget_FUNC";
    Enum.Plain "_1gtk_1toolbar_1new_FUNC";
    Enum.Plain "_1gtk_1toolbar_1set_1orientation_FUNC";
    Enum.Plain "_1gtk_1tooltips_1disable_FUNC";
    Enum.Plain "_1gtk_1tooltips_1enable_FUNC";
    Enum.Plain "_1gtk_1tooltips_1new_FUNC";
    Enum.Plain "_1gtk_1tooltips_1set_1tip_FUNC";
    Enum.Plain "_1gtk_1tree_1model_1get__III_3II_FUNC";
    Enum.Plain "_1gtk_1tree_1model_1get__III_3JI_FUNC";
    Enum.Plain "_1gtk_1tree_1model_1get_1iter_FUNC";
    Enum.Plain "_1gtk_1tree_1model_1get_1iter_1first_FUNC";
    Enum.Plain "_1gtk_1tree_1model_1get_1n_1columns_FUNC";
    Enum.Plain "_1gtk_1tree_1model_1get_1path_FUNC";
    Enum.Plain "_1gtk_1tree_1model_1get_1type_FUNC";
    Enum.Plain "_1gtk_1tree_1model_1iter_1children_FUNC";
    Enum.Plain "_1gtk_1tree_1model_1iter_1n_1children_FUNC";
    Enum.Plain "_1gtk_1tree_1model_1iter_1next_FUNC";
    Enum.Plain "_1gtk_1tree_1model_1iter_1nth_1child_FUNC";
    Enum.Plain "_1gtk_1tree_1path_1append_1index_FUNC";
    Enum.Plain "_1gtk_1tree_1path_1compare_FUNC";
    Enum.Plain "_1gtk_1tree_1path_1down_FUNC";
    Enum.Plain "_1gtk_1tree_1path_1free_FUNC";
    Enum.Plain "_1gtk_1tree_1path_1get_1depth_FUNC";
    Enum.Plain "_1gtk_1tree_1path_1get_1indices_FUNC";
    Enum.Plain "_1gtk_1tree_1path_1new_FUNC";
    Enum.Plain "_1gtk_1tree_1path_1new_1first_FUNC";
    Enum.Plain "_1gtk_1tree_1path_1new_1from_1string__I_FUNC";
    Enum.Plain "_1gtk_1tree_1path_1new_1from_1string___3B_FUNC";
    Enum.Plain "_1gtk_1tree_1path_1next_FUNC";
    Enum.Plain "_1gtk_1tree_1path_1prev_FUNC";
    Enum.Plain "_1gtk_1tree_1path_1up_FUNC";
    Enum.Plain "_1gtk_1tree_1selection_1get_1selected_FUNC";
    Enum.Plain "_1gtk_1tree_1selection_1get_1selected_1rows_FUNC";
    Enum.Plain "_1gtk_1tree_1selection_1path_1is_1selected_FUNC";
    Enum.Plain "_1gtk_1tree_1selection_1select_1all_FUNC";
    Enum.Plain "_1gtk_1tree_1selection_1select_1iter_FUNC";
    Enum.Plain "_1gtk_1tree_1selection_1selected_1foreach_FUNC";
    Enum.Plain "_1gtk_1tree_1selection_1set_1mode_FUNC";
    Enum.Plain "_1gtk_1tree_1selection_1unselect_1all_FUNC";
    Enum.Plain "_1gtk_1tree_1selection_1unselect_1iter_FUNC";
    Enum.Plain "_1gtk_1tree_1store_1append_FUNC";
    Enum.Plain "_1gtk_1tree_1store_1clear_FUNC";
    Enum.Plain "_1gtk_1tree_1store_1insert_FUNC";
    Enum.Plain "_1gtk_1tree_1store_1newv_FUNC";
    Enum.Plain "_1gtk_1tree_1store_1remove_FUNC";
    Enum.Plain "_1gtk_1tree_1store_1set__IIIII_FUNC";
    Enum.Plain "_1gtk_1tree_1store_1set__IIIJI_FUNC";
    Enum.Plain "_1gtk_1tree_1store_1set__IIILorg_eclipse_swt_internal_gtk_GdkColor_2I_FUNC";
    Enum.Plain "_1gtk_1tree_1store_1set__IIIZI_FUNC";
    Enum.Plain "_1gtk_1tree_1store_1set__III_3BI_FUNC";
    Enum.Plain "_1gtk_1tree_1view_1collapse_1row_FUNC";
    Enum.Plain "_1gtk_1tree_1view_1column_1add_1attribute_FUNC";
    Enum.Plain "_1gtk_1tree_1view_1column_1cell_1get_1position_FUNC";
    Enum.Plain "_1gtk_1tree_1view_1column_1cell_1get_1size_FUNC";
    Enum.Plain "_1gtk_1tree_1view_1column_1cell_1set_1cell_1data_FUNC";
    Enum.Plain "_1gtk_1tree_1view_1column_1clear_FUNC";
    Enum.Plain "_1gtk_1tree_1view_1column_1get_1cell_1renderers_FUNC";
    Enum.Plain "_1gtk_1tree_1view_1column_1get_1fixed_1width_FUNC";
    Enum.Plain "_1gtk_1tree_1view_1column_1get_1reorderable_FUNC";
    Enum.Plain "_1gtk_1tree_1view_1column_1get_1resizable_FUNC";
    Enum.Plain "_1gtk_1tree_1view_1column_1get_1spacing_FUNC";
    Enum.Plain "_1gtk_1tree_1view_1column_1get_1visible_FUNC";
    Enum.Plain "_1gtk_1tree_1view_1column_1get_1width_FUNC";
    Enum.Plain "_1gtk_1tree_1view_1column_1new_FUNC";
    Enum.Plain "_1gtk_1tree_1view_1column_1pack_1end_FUNC";
    Enum.Plain "_1gtk_1tree_1view_1column_1pack_1start_FUNC";
    Enum.Plain "_1gtk_1tree_1view_1column_1set_1alignment_FUNC";
    Enum.Plain "_1gtk_1tree_1view_1column_1set_1cell_1data_1func_FUNC";
    Enum.Plain "_1gtk_1tree_1view_1column_1set_1clickable_FUNC";
    Enum.Plain "_1gtk_1tree_1view_1column_1set_1fixed_1width_FUNC";
    Enum.Plain "_1gtk_1tree_1view_1column_1set_1reorderable_FUNC";
    Enum.Plain "_1gtk_1tree_1view_1column_1set_1resizable_FUNC";
    Enum.Plain "_1gtk_1tree_1view_1column_1set_1sizing_FUNC";
    Enum.Plain "_1gtk_1tree_1view_1column_1set_1title_FUNC";
    Enum.Plain "_1gtk_1tree_1view_1column_1set_1visible_FUNC";
    Enum.Plain "_1gtk_1tree_1view_1column_1set_1widget_FUNC";
    Enum.Plain "_1gtk_1tree_1view_1expand_1row_FUNC";
    Enum.Plain "_1gtk_1tree_1view_1get_1bin_1window_FUNC";
    Enum.Plain "_1gtk_1tree_1view_1get_1cell_1area_FUNC";
    Enum.Plain "_1gtk_1tree_1view_1get_1column_FUNC";
    Enum.Plain "_1gtk_1tree_1view_1get_1columns_FUNC";
    Enum.Plain "_1gtk_1tree_1view_1get_1cursor_FUNC";
    Enum.Plain "_1gtk_1tree_1view_1get_1expander_1column_FUNC";
    Enum.Plain "_1gtk_1tree_1view_1get_1headers_1visible_FUNC";
    Enum.Plain "_1gtk_1tree_1view_1get_1path_1at_1pos_FUNC";
    Enum.Plain "_1gtk_1tree_1view_1get_1rules_1hint_FUNC";
    Enum.Plain "_1gtk_1tree_1view_1get_1selection_FUNC";
    Enum.Plain "_1gtk_1tree_1view_1get_1visible_1rect_FUNC";
    Enum.Plain "_1gtk_1tree_1view_1insert_1column_FUNC";
    Enum.Plain "_1gtk_1tree_1view_1move_1column_1after_FUNC";
    Enum.Plain "_1gtk_1tree_1view_1new_1with_1model_FUNC";
    Enum.Plain "_1gtk_1tree_1view_1remove_1column_FUNC";
    Enum.Plain "_1gtk_1tree_1view_1row_1expanded_FUNC";
    Enum.Plain "_1gtk_1tree_1view_1scroll_1to_1cell_FUNC";
    Enum.Plain "_1gtk_1tree_1view_1scroll_1to_1point_FUNC";
    Enum.Plain "_1gtk_1tree_1view_1set_1cursor_FUNC";
    Enum.Plain "_1gtk_1tree_1view_1set_1drag_1dest_1row_FUNC";
    Enum.Plain "_1gtk_1tree_1view_1set_1headers_1visible_FUNC";
    Enum.Plain "_1gtk_1tree_1view_1set_1model_FUNC";
    Enum.Plain "_1gtk_1tree_1view_1set_1rules_1hint_FUNC";
    Enum.Plain "_1gtk_1tree_1view_1tree_1to_1widget_1coords_FUNC";
    Enum.Plain "_1gtk_1tree_1view_1unset_1rows_1drag_1dest_FUNC";
    Enum.Plain "_1gtk_1tree_1view_1widget_1to_1tree_1coords_FUNC";
    Enum.Plain "_1gtk_1vbox_1new_FUNC";
    Enum.Plain "_1gtk_1vscale_1new_FUNC";
    Enum.Plain "_1gtk_1vscrollbar_1new_FUNC";
    Enum.Plain "_1gtk_1vseparator_1new_FUNC";
    Enum.Plain "_1gtk_1widget_1add_1accelerator_FUNC";
    Enum.Plain "_1gtk_1widget_1add_1events_FUNC";
    Enum.Plain "_1gtk_1widget_1child_1focus_FUNC";
    Enum.Plain "_1gtk_1widget_1create_1pango_1layout__II_FUNC";
    Enum.Plain "_1gtk_1widget_1create_1pango_1layout__I_3B_FUNC";
    Enum.Plain "_1gtk_1widget_1destroy_FUNC";
    Enum.Plain "_1gtk_1widget_1event_FUNC";
    Enum.Plain "_1gtk_1widget_1get_1child_1visible_FUNC";
    Enum.Plain "_1gtk_1widget_1get_1default_1direction_FUNC";
    Enum.Plain "_1gtk_1widget_1get_1default_1style_FUNC";
    Enum.Plain "_1gtk_1widget_1get_1direction_FUNC";
    Enum.Plain "_1gtk_1widget_1get_1events_FUNC";
    Enum.Plain "_1gtk_1widget_1get_1modifier_1style_FUNC";
    Enum.Plain "_1gtk_1widget_1get_1pango_1context_FUNC";
    Enum.Plain "_1gtk_1widget_1get_1parent_FUNC";
    Enum.Plain "_1gtk_1widget_1get_1size_1request_FUNC";
    Enum.Plain "_1gtk_1widget_1get_1style_FUNC";
    Enum.Plain "_1gtk_1widget_1get_1toplevel_FUNC";
    Enum.Plain "_1gtk_1widget_1grab_1focus_FUNC";
    Enum.Plain "_1gtk_1widget_1hide_FUNC";
    Enum.Plain "_1gtk_1widget_1is_1focus_FUNC";
    Enum.Plain "_1gtk_1widget_1map_FUNC";
    Enum.Plain "_1gtk_1widget_1mnemonic_1activate_FUNC";
    Enum.Plain "_1gtk_1widget_1modify_1base_FUNC";
    Enum.Plain "_1gtk_1widget_1modify_1bg_FUNC";
    Enum.Plain "_1gtk_1widget_1modify_1fg_FUNC";
    Enum.Plain "_1gtk_1widget_1modify_1font_FUNC";
    Enum.Plain "_1gtk_1widget_1modify_1style_FUNC";
    Enum.Plain "_1gtk_1widget_1modify_1text_FUNC";
    Enum.Plain "_1gtk_1widget_1realize_FUNC";
    Enum.Plain "_1gtk_1widget_1remove_1accelerator_FUNC";
    Enum.Plain "_1gtk_1widget_1reparent_FUNC";
    Enum.Plain "_1gtk_1widget_1set_1default_1direction_FUNC";
    Enum.Plain "_1gtk_1widget_1set_1direction_FUNC";
    Enum.Plain "_1gtk_1widget_1set_1double_1buffered_FUNC";
    Enum.Plain "_1gtk_1widget_1set_1name_FUNC";
    Enum.Plain "_1gtk_1widget_1set_1redraw_1on_1allocate_FUNC";
    Enum.Plain "_1gtk_1widget_1set_1sensitive_FUNC";
    Enum.Plain "_1gtk_1widget_1set_1size_1request_FUNC";
    Enum.Plain "_1gtk_1widget_1set_1state_FUNC";
    Enum.Plain "_1gtk_1widget_1shape_1combine_1mask_FUNC";
    Enum.Plain "_1gtk_1widget_1show_FUNC";
    Enum.Plain "_1gtk_1widget_1show_1now_FUNC";
    Enum.Plain "_1gtk_1widget_1size_1allocate_FUNC";
    Enum.Plain "_1gtk_1widget_1size_1request_FUNC";
    Enum.Plain "_1gtk_1widget_1style_1get__I_3B_3II_FUNC";
    Enum.Plain "_1gtk_1widget_1style_1get__I_3B_3JI_FUNC";
    Enum.Plain "_1gtk_1widget_1unrealize_FUNC";
    Enum.Plain "_1gtk_1window_1activate_1default_FUNC";
    Enum.Plain "_1gtk_1window_1add_1accel_1group_FUNC";
    Enum.Plain "_1gtk_1window_1deiconify_FUNC";
    Enum.Plain "_1gtk_1window_1get_1focus_FUNC";
    Enum.Plain "_1gtk_1window_1get_1mnemonic_1modifier_FUNC";
    Enum.Plain "_1gtk_1window_1get_1position_FUNC";
    Enum.Plain "_1gtk_1window_1get_1size_FUNC";
    Enum.Plain "_1gtk_1window_1iconify_FUNC";
    Enum.Plain "_1gtk_1window_1maximize_FUNC";
    Enum.Plain "_1gtk_1window_1move_FUNC";
    Enum.Plain "_1gtk_1window_1new_FUNC";
    Enum.Plain "_1gtk_1window_1present_FUNC";
    Enum.Plain "_1gtk_1window_1remove_1accel_1group_FUNC";
    Enum.Plain "_1gtk_1window_1resize_FUNC";
    Enum.Plain "_1gtk_1window_1set_1default_FUNC";
    Enum.Plain "_1gtk_1window_1set_1destroy_1with_1parent_FUNC";
    Enum.Plain "_1gtk_1window_1set_1geometry_1hints_FUNC";
    Enum.Plain "_1gtk_1window_1set_1modal_FUNC";
    Enum.Plain "_1gtk_1window_1set_1resizable_FUNC";
    Enum.Plain "_1gtk_1window_1set_1title_FUNC";
    Enum.Plain "_1gtk_1window_1set_1transient_1for_FUNC";
    Enum.Plain "_1gtk_1window_1set_1type_1hint_FUNC";
    Enum.Plain "_1gtk_1window_1unmaximize_FUNC";
    Enum.Plain "_1pango_1attr_1background_1new_FUNC";
    Enum.Plain "_1pango_1attr_1font_1desc_1new_FUNC";
    Enum.Plain "_1pango_1attr_1foreground_1new_FUNC";
    Enum.Plain "_1pango_1attr_1list_1change_FUNC";
    Enum.Plain "_1pango_1attr_1list_1insert_FUNC";
    Enum.Plain "_1pango_1attr_1list_1new_FUNC";
    Enum.Plain "_1pango_1attr_1list_1unref_FUNC";
    Enum.Plain "_1pango_1attr_1shape_1new_FUNC";
    Enum.Plain "_1pango_1attr_1strikethrough_1new_FUNC";
    Enum.Plain "_1pango_1attr_1underline_1new_FUNC";
    Enum.Plain "_1pango_1attr_1weight_1new_FUNC";
    Enum.Plain "_1pango_1context_1get_1base_1dir_FUNC";
    Enum.Plain "_1pango_1context_1get_1language_FUNC";
    Enum.Plain "_1pango_1context_1get_1metrics_FUNC";
    Enum.Plain "_1pango_1context_1list_1families_FUNC";
    Enum.Plain "_1pango_1context_1set_1base_1dir_FUNC";
    Enum.Plain "_1pango_1context_1set_1language_FUNC";
    Enum.Plain "_1pango_1font_1description_1copy_FUNC";
    Enum.Plain "_1pango_1font_1description_1free_FUNC";
    Enum.Plain "_1pango_1font_1description_1from_1string_FUNC";
    Enum.Plain "_1pango_1font_1description_1get_1family_FUNC";
    Enum.Plain "_1pango_1font_1description_1get_1size_FUNC";
    Enum.Plain "_1pango_1font_1description_1get_1style_FUNC";
    Enum.Plain "_1pango_1font_1description_1get_1weight_FUNC";
    Enum.Plain "_1pango_1font_1description_1new_FUNC";
    Enum.Plain "_1pango_1font_1description_1set_1family_FUNC";
    Enum.Plain "_1pango_1font_1description_1set_1size_FUNC";
    Enum.Plain "_1pango_1font_1description_1set_1stretch_FUNC";
    Enum.Plain "_1pango_1font_1description_1set_1style_FUNC";
    Enum.Plain "_1pango_1font_1description_1set_1weight_FUNC";
    Enum.Plain "_1pango_1font_1description_1to_1string_FUNC";
    Enum.Plain "_1pango_1font_1face_1describe_FUNC";
    Enum.Plain "_1pango_1font_1family_1get_1name_FUNC";
    Enum.Plain "_1pango_1font_1family_1list_1faces_FUNC";
    Enum.Plain "_1pango_1font_1get_1metrics_FUNC";
    Enum.Plain "_1pango_1font_1metrics_1get_1approximate_1char_1width_FUNC";
    Enum.Plain "_1pango_1font_1metrics_1get_1ascent_FUNC";
    Enum.Plain "_1pango_1font_1metrics_1get_1descent_FUNC";
    Enum.Plain "_1pango_1font_1metrics_1unref_FUNC";
    Enum.Plain "_1pango_1language_1from_1string_FUNC";
    Enum.Plain "_1pango_1layout_1context_1changed_FUNC";
    Enum.Plain "_1pango_1layout_1get_1alignment_FUNC";
    Enum.Plain "_1pango_1layout_1get_1attributes_FUNC";
    Enum.Plain "_1pango_1layout_1get_1iter_FUNC";
    Enum.Plain "_1pango_1layout_1get_1line_FUNC";
    Enum.Plain "_1pango_1layout_1get_1line_1count_FUNC";
    Enum.Plain "_1pango_1layout_1get_1log_1attrs_FUNC";
    Enum.Plain "_1pango_1layout_1get_1size_FUNC";
    Enum.Plain "_1pango_1layout_1get_1spacing_FUNC";
    Enum.Plain "_1pango_1layout_1get_1tabs_FUNC";
    Enum.Plain "_1pango_1layout_1get_1text_FUNC";
    Enum.Plain "_1pango_1layout_1get_1width_FUNC";
    Enum.Plain "_1pango_1layout_1index_1to_1pos_FUNC";
    Enum.Plain "_1pango_1layout_1iter_1free_FUNC";
    Enum.Plain "_1pango_1layout_1iter_1get_1index_FUNC";
    Enum.Plain "_1pango_1layout_1iter_1get_1line_1extents_FUNC";
    Enum.Plain "_1pango_1layout_1iter_1get_1run_FUNC";
    Enum.Plain "_1pango_1layout_1iter_1next_1line_FUNC";
    Enum.Plain "_1pango_1layout_1iter_1next_1run_FUNC";
    Enum.Plain "_1pango_1layout_1line_1get_1extents_FUNC";
    Enum.Plain "_1pango_1layout_1line_1x_1to_1index_FUNC";
    Enum.Plain "_1pango_1layout_1new_FUNC";
    Enum.Plain "_1pango_1layout_1set_1alignment_FUNC";
    Enum.Plain "_1pango_1layout_1set_1attributes_FUNC";
    Enum.Plain "_1pango_1layout_1set_1auto_1dir_FUNC";
    Enum.Plain "_1pango_1layout_1set_1font_1description_FUNC";
    Enum.Plain "_1pango_1layout_1set_1single_1paragraph_1mode_FUNC";
    Enum.Plain "_1pango_1layout_1set_1spacing_FUNC";
    Enum.Plain "_1pango_1layout_1set_1tabs_FUNC";
    Enum.Plain "_1pango_1layout_1set_1text_FUNC";
    Enum.Plain "_1pango_1layout_1set_1width_FUNC";
    Enum.Plain "_1pango_1layout_1set_1wrap_FUNC";
    Enum.Plain "_1pango_1layout_1xy_1to_1index_FUNC";
    Enum.Plain "_1pango_1tab_1array_1free_FUNC";
    Enum.Plain "_1pango_1tab_1array_1get_1size_FUNC";
    Enum.Plain "_1pango_1tab_1array_1get_1tabs_FUNC";
    Enum.Plain "_1pango_1tab_1array_1new_FUNC";
    Enum.Plain "_1pango_1tab_1array_1set_1tab_FUNC";
    Enum.Plain "g_1main_1context_1wakeup_FUNC";
    Enum.Plain "getenv_FUNC";
    Enum.Plain "localeconv_1decimal_1point_FUNC";
    Enum.Plain "memmove__III_FUNC";
    Enum.Plain "memmove__ILorg_eclipse_swt_internal_gtk_GInterfaceInfo_2I_FUNC";
    Enum.Plain "memmove__ILorg_eclipse_swt_internal_gtk_GObjectClass_2_FUNC";
    Enum.Plain "memmove__ILorg_eclipse_swt_internal_gtk_GTypeInfo_2I_FUNC";
    Enum.Plain "memmove__ILorg_eclipse_swt_internal_gtk_GdkEventButton_2I_FUNC";
    Enum.Plain "memmove__ILorg_eclipse_swt_internal_gtk_GtkAdjustment_2_FUNC";
    Enum.Plain "memmove__ILorg_eclipse_swt_internal_gtk_GtkFixed_2_FUNC";
    Enum.Plain "memmove__ILorg_eclipse_swt_internal_gtk_GtkTargetEntry_2I_FUNC";
    Enum.Plain "memmove__ILorg_eclipse_swt_internal_gtk_GtkWidgetClass_2_FUNC";
    Enum.Plain "memmove__ILorg_eclipse_swt_internal_gtk_PangoAttribute_2I_FUNC";
    Enum.Plain "memmove__ILorg_eclipse_swt_internal_gtk_XButtonEvent_2I_FUNC";
    Enum.Plain "memmove__ILorg_eclipse_swt_internal_gtk_XClientMessageEvent_2I_FUNC";
    Enum.Plain "memmove__ILorg_eclipse_swt_internal_gtk_XCrossingEvent_2I_FUNC";
    Enum.Plain "memmove__ILorg_eclipse_swt_internal_gtk_XExposeEvent_2I_FUNC";
    Enum.Plain "memmove__ILorg_eclipse_swt_internal_gtk_XFocusChangeEvent_2I_FUNC";
    Enum.Plain "memmove__I_3BI_FUNC";
    Enum.Plain "memmove__I_3CI_FUNC";
    Enum.Plain "memmove__I_3DI_FUNC";
    Enum.Plain "memmove__I_3II_FUNC";
    Enum.Plain "memmove__I_3JI_FUNC";
    Enum.Plain "memmove__Lorg_eclipse_swt_internal_gtk_GObjectClass_2I_FUNC";
    Enum.Plain "memmove__Lorg_eclipse_swt_internal_gtk_GTypeQuery_2II_FUNC";
    Enum.Plain "memmove__Lorg_eclipse_swt_internal_gtk_GdkColor_2II_FUNC";
    Enum.Plain "memmove__Lorg_eclipse_swt_internal_gtk_GdkDragContext_2II_FUNC";
    Enum.Plain "memmove__Lorg_eclipse_swt_internal_gtk_GdkEventButton_2II_FUNC";
    Enum.Plain "memmove__Lorg_eclipse_swt_internal_gtk_GdkEventCrossing_2II_FUNC";
    Enum.Plain "memmove__Lorg_eclipse_swt_internal_gtk_GdkEventExpose_2II_FUNC";
    Enum.Plain "memmove__Lorg_eclipse_swt_internal_gtk_GdkEventFocus_2II_FUNC";
    Enum.Plain "memmove__Lorg_eclipse_swt_internal_gtk_GdkEventKey_2II_FUNC";
    Enum.Plain "memmove__Lorg_eclipse_swt_internal_gtk_GdkEventMotion_2II_FUNC";
    Enum.Plain "memmove__Lorg_eclipse_swt_internal_gtk_GdkEventScroll_2II_FUNC";
    Enum.Plain "memmove__Lorg_eclipse_swt_internal_gtk_GdkEventVisibility_2II_FUNC";
    Enum.Plain "memmove__Lorg_eclipse_swt_internal_gtk_GdkEventWindowState_2II_FUNC";
    Enum.Plain "memmove__Lorg_eclipse_swt_internal_gtk_GdkEvent_2II_FUNC";
    Enum.Plain "memmove__Lorg_eclipse_swt_internal_gtk_GdkImage_2I_FUNC";
    Enum.Plain "memmove__Lorg_eclipse_swt_internal_gtk_GdkRectangle_2II_FUNC";
    Enum.Plain "memmove__Lorg_eclipse_swt_internal_gtk_GdkVisual_2I_FUNC";
    Enum.Plain "memmove__Lorg_eclipse_swt_internal_gtk_GtkAdjustment_2I_FUNC";
    Enum.Plain "memmove__Lorg_eclipse_swt_internal_gtk_GtkBorder_2II_FUNC";
    Enum.Plain "memmove__Lorg_eclipse_swt_internal_gtk_GtkColorSelectionDialog_2I_FUNC";
    Enum.Plain "memmove__Lorg_eclipse_swt_internal_gtk_GtkCombo_2I_FUNC";
    Enum.Plain "memmove__Lorg_eclipse_swt_internal_gtk_GtkFileSelection_2I_FUNC";
    Enum.Plain "memmove__Lorg_eclipse_swt_internal_gtk_GtkFixed_2I_FUNC";
    Enum.Plain "memmove__Lorg_eclipse_swt_internal_gtk_GtkSelectionData_2II_FUNC";
    Enum.Plain "memmove__Lorg_eclipse_swt_internal_gtk_GtkTargetPair_2II_FUNC";
    Enum.Plain "memmove__Lorg_eclipse_swt_internal_gtk_GtkWidgetClass_2I_FUNC";
    Enum.Plain "memmove__Lorg_eclipse_swt_internal_gtk_PangoAttribute_2II_FUNC";
    Enum.Plain "memmove__Lorg_eclipse_swt_internal_gtk_PangoItem_2II_FUNC";
    Enum.Plain "memmove__Lorg_eclipse_swt_internal_gtk_PangoLayoutLine_2II_FUNC";
    Enum.Plain "memmove__Lorg_eclipse_swt_internal_gtk_PangoLayoutRun_2II_FUNC";
    Enum.Plain "memmove__Lorg_eclipse_swt_internal_gtk_PangoLogAttr_2II_FUNC";
    Enum.Plain "memmove__Lorg_eclipse_swt_internal_gtk_XButtonEvent_2II_FUNC";
    Enum.Plain "memmove__Lorg_eclipse_swt_internal_gtk_XCrossingEvent_2II_FUNC";
    Enum.Plain "memmove__Lorg_eclipse_swt_internal_gtk_XExposeEvent_2II_FUNC";
    Enum.Plain "memmove__Lorg_eclipse_swt_internal_gtk_XFocusChangeEvent_2II_FUNC";
    Enum.Plain "memmove__Lorg_eclipse_swt_internal_gtk_XVisibilityEvent_2II_FUNC";
    Enum.Plain "memmove___3BII_FUNC";
    Enum.Plain "memmove___3CII_FUNC";
    Enum.Plain "memmove___3III_FUNC";
    Enum.Plain "memmove___3I_3BI_FUNC";
    Enum.Plain "memmove___3JII_FUNC";
    Enum.Plain "memset_FUNC";
    Enum.Plain "strlen_FUNC" ].

Definition OS_FUNCS_values : list (string * Z) := Enum.values OS_FUNCS.

Definition OS_FUNCS_names : list string := Enum.enumerator_name <$> OS_FUNCS.

(** Number of enumerators. *)
Definition OS_FUNCS_count : Z := Z.of_nat (length OS_FUNCS).

(** The value of an enumerator, given by name. *)
Definition ordinal (name : string) : option Z := Enum.assoc name OS_FUNCS_values.

(** [func] is the value of some enumerator of [OS_FUNCS]. *)
Definition is_OS_FUNCS (func : Z) : Prop :=
  exists name, (name, func) ∈ OS_FUNCS_values.

(** ** The conditional group and the macros (source lines 16 to 25) *)

Module Header.

Inductive ctype : Type :=
| Tint
| Tchar
| Tpointer (t : ctype)
| Tarray (t : ctype).   (* array of unknown bound, as in [int a[]] *)

(** The statements that occur in the replacement lists of the header.
    [PostIncrement a i] is [a[i]++;], where [i] names a macro parameter. *)
Inductive statement : Type :=
| PostIncrement (array index : string).

Inductive line : Type :=
| Ifdef (macro : string)
| Else
| Endif
| Extern (ty : ctype) (name : string)
| Define (name : string) (params : list string) (replacement : list statement)
| TypedefEnum (name : string) (enumerators : list Enum.enumerator).

Definition os_stats_h : list line :=
  [ Ifdef "NATIVE_STATS";
    Extern Tint "OS_nativeFunctionCount";
    Extern (Tarray Tint) "OS_nativeFunctionCallCount";
    Extern (Tarray (Tpointer Tchar)) "OS_nativeFunctionNames";
    Define "OS_NATIVE_ENTER" ["env"; "that"; "func"]
           [PostIncrement "OS_nativeFunctionCallCount" "func"];
    Define "OS_NATIVE_EXIT" ["env"; "that"; "func"] [];
    Else;
    Define "OS_NATIVE_ENTER" ["env"; "that"; "func"] [];
    Define "OS_NATIVE_EXIT" ["env"; "that"; "func"] [];
    Endif;
    TypedefEnum "OS_FUNCS" OS_FUNCS ].

(** *** Conditional inclusion *)

(** A line is kept when every enclosing group is taken. *)
Definition taken (groups : list bool) : bool := forallb id groups.

(** [defined] holds the macro names defined so far (initially those given
    on the command line); [groups] is the stack of open conditionals. *)
Fixpoint preprocess (defined : list string) (groups : list bool)
         (src : list line) : list line :=
  match src with
  | [] => []
  | Ifdef m :: rest =>
      preprocess defined (bool_decide (m ∈ defined) :: groups) rest
  | Else :: rest =>
      match groups with
      | g :: gs => preprocess defined (negb g :: gs) rest
      | [] => preprocess defined [] rest
      end
  | Endif :: rest => preprocess defined (tail groups) rest
  | Define x ps r :: rest =>
      if taken groups
      then Define x ps r :: preprocess (x :: defined) groups rest
      else preprocess defined groups rest
  | l :: rest =>
      if taken groups
      then l :: preprocess defined groups rest
      else preprocess defined groups rest
  end.

(** The header as the compiler sees it, for a given set of macros defined
    when the header is included. *)
Definition translation_unit (defined : list string) : list line :=
  preprocess defined [] os_stats_h.

(** The external declarations in force. *)
Fixpoint externs (tu : list line) : list (string * ctype) :=
  match tu with
  | [] => []
  | Extern ty x :: rest => (x, ty) :: externs rest
  | _ :: rest => externs rest
  end.

Fixpoint declared_type (x : string) (tu : list line) : option ctype :=
  match tu with
  | [] => None
  | Extern ty y :: rest =>
      if String.eqb x y then Some ty else declared_type x rest
  | _ :: rest => declared_type x rest
  end.

(** The definition of a function-like macro: parameters and replacement. *)
Fixpoint macro (name : string) (tu : list line)
  : option (list string * list statement) :=
  match tu with
  | [] => None
  | Define x ps r :: rest =>
      if String.eqb name x then Some (ps, r) else macro name rest
  | _ :: rest => macro name rest
  end.

Fixpoint enumeration (name : string) (tu : list line)
  : option (list Enum.enumerator) :=
  match tu with
  | [] => None
  | TypedefEnum x es :: rest =>
      if String.eqb name x then Some es else enumeration name rest
  | _ :: rest => enumeration name rest
  end.

(** *** Objects and the store *)

(** The objects the header declares: an [int], an array of [int], an array
    of strings ([char*]). *)
Inductive object : Type :=
| Oint (n : Z)
| Oints (cells : list Z)
| Ostrings (cells : list string).

(** The store maps the name of an external object to its contents. *)
Abbreviation store := (gmap string object).

(** Arguments of a macro invocation: integers ([func]) and pointers
    ([env], [that]). *)
Inductive value : Type :=
| Vint (n : Z)
| Vptr (address : Z).

Inductive error : Type :=
| NoSuchMacro (name : string)
| WrongArity (name : string)
| Undeclared (x : string)         (* identifier not declared in this unit *)
| NotAnIntArray (x : string)
| NotAnIndex (x : string)
| Unresolved (x : string)         (* no such object behind the declaration *)
| OutOfBounds (x : string) (i : Z)   (* undefined behaviour *)
| Overflow (x : string) (i : Z).     (* undefined behaviour *)

Inductive outcome : Type :=
| Ok (st : store)
| Fail (e : error).

(** [cells[i]] for a C index: negative indices are outside the array. *)
Definition index {A : Type} (cells : list A) (i : Z) : option A :=
  if 0 <=? i then cells !! Z.to_nat i else None.

(** [a[i]++;] on an array of [int]. *)
Definition post_increment (a : string) (i : Z) (st : store) : outcome :=
  match st !! a with
  | Some (Oints cells) =>
      match index cells i with
      | Some c =>
          if c <? CInt.INT_MAX
          then Ok (<[a := Oints (<[Z.to_nat i := c + 1]> cells)]> st)
          else Fail (Overflow a i)
      | None => Fail (OutOfBounds a i)
      end
  | _ => Fail (Unresolved a)
  end.

Fixpoint argument (x : string) (args : list (string * value)) : option value :=
  match args with
  | [] => None
  | (y, v) :: args' => if String.eqb x y then Some v else argument x args'
  end.

Definition exec_statement (tu : list line) (args : list (string * value))
           (s : statement) (st : store) : outcome :=
  match s with
  | PostIncrement a i =>
      match declared_type a tu with
      | Some (Tarray Tint) =>
          match argument i args with
          | Some (Vint n) => post_increment a n st
          | _ => Fail (NotAnIndex i)
          end
      | Some _ => Fail (NotAnIntArray a)
      | None => Fail (Undeclared a)
      end
  end.

Fixpoint exec (tu : list line) (args : list (string * value))
         (ss : list statement) (st : store) : outcome :=
  match ss with
  | [] => Ok st
  | s :: ss' =>
      match exec_statement tu args s st with
      | Ok st' => exec tu args ss' st'
      | Fail e => Fail e
      end
  end.

(** Invocation of a function-like macro: the parameters are bound to the
    arguments and the replacement list is executed. *)
Definition invoke (tu : list line) (name : string) (actuals : list value)
           (st : store) : outcome :=
  match macro name tu with
  | Some (params, replacement) =>
      if Nat.eqb (length params) (length actuals)
      then exec tu (zip params actuals) replacement st
      else Fail (WrongArity name)
  | None => Fail (NoSuchMacro name)
  end.

(** What an invocation of the macro expands to. *)
Definition expansion (tu : list line) (name : string) : option (list statement) :=
  snd <$> macro name tu.

End Header.

Import Header.

(** [NATIVE_STATS] is defined when the header is included. *)
Definition native_stats (defined : list string) : bool :=
  bool_decide ("NATIVE_STATS" ∈ defined).

(** [OS_NATIVE_ENTER(env, that, func)] *)
Definition OS_NATIVE_ENTER (defined : list string) (env that : value) (func : Z)
           (st : store) : outcome :=
  invoke (translation_unit defined) "OS_NATIVE_ENTER" [env; that; Vint func] st.

(** [OS_NATIVE_EXIT(env, that, func)] *)
Definition OS_NATIVE_EXIT (defined : list string) (env that : value) (func : Z)
           (st : store) : outcome :=
  invoke (translation_unit defined) "OS_NATIVE_EXIT" [env; that; Vint func] st.

(** *** Reading the telemetry objects *)

Definition call_counts (st : store) : option (list Z) :=
  match st !! "OS_nativeFunctionCallCount" with
  | Some (Oints cells) => Some cells
  | _ => None
  end.

(** [OS_nativeFunctionCallCount[func]] *)
Definition call_count (st : store) (func : Z) : option Z :=
  match call_counts st with
  | Some cells => index cells func
  | None => None
  end.

(** The counter table has [n] counters.  The header leaves the bound of the
    array open ([extern int OS_nativeFunctionCallCount[]]); the bound is a
    parameter of the statements below. *)
Definition counter_table (n : Z) (st : store) : Prop :=
  exists cells, call_counts st = Some cells /\ Z.of_nat (length cells) = n.

(** The counter of [func] can still be incremented. *)
Definition below_INT_MAX (st : store) (func : Z) : Prop :=
  forall c, call_count st func = Some c -> c < CInt.INT_MAX.

(** ** The order of the listing *)

Module Listing.

(** Every element is below its successor. *)
Fixpoint ascending {A : Type} (ltb : A -> A -> bool) (l : list A) : bool :=
  match l with
  | [] => true
  | x :: l' =>
      match l' with
      | [] => true
      | y :: _ => ltb x y && ascending ltb l'
      end
  end.

(** An enumerator is named after a native method: the JNI name of the
    method followed by [_FUNC]. *)
Fixpoint strip_FUNC (s : string) : option string :=
  match s with
  | EmptyString => None
  | String c s' =>
      if String.eqb s "_FUNC" then Some "" else String c <$> strip_FUNC s'
  end.

(** The JNI name of an overloaded method is the method name, two
    underscores, and the encoded argument signature. *)
Fixpoint split_overload (s : string) : string * string :=
  match s with
  | EmptyString => ("", "")
  | String c s' =>
      match s' with
      | EmptyString => (String c "", "")
      | String d signature =>
          if Ascii.eqb c "_" && Ascii.eqb d "_"
          then ("", signature)
          else let (m, g) := split_overload s' in (String c m, g)
      end
  end.

Definition method_key (enumerator : string) : option (string * string) :=
  split_overload <$> strip_FUNC enumerator.

(** Method name first, signature second, each in ASCII order. *)
Definition key_ltb (a b : string * string) : bool :=
  match String.compare (fst a) (fst b) with
  | Lt => true
  | Eq => String.ltb (snd a) (snd b)
  | Gt => false
  end.

Definition by_method (a b : string) : bool :=
  match method_key a, method_key b with
  | Some ka, Some kb => key_ltb ka kb
  | _, _ => false
  end.

End Listing.

(** ** Call sites *)

(** Modelled from the spec: the call sites of the two macros are in the
    companion sources of the bridge, which are not part of this header; the
    spec describes them as "instrumentation hooks inserted around native call
    sites".  An instrumented native function enters, runs its body and
    exits. *)
Definition instrumented (defined : list string) (env that : value) (func : Z)
           (body : store -> outcome) (st : store) : outcome :=
  match OS_NATIVE_ENTER defined env that func st with
  | Ok st1 =>
      match body st1 with
      | Ok st2 => OS_NATIVE_EXIT defined env that func st2
      | Fail e => Fail e
      end
  | Fail e => Fail e
  end.

(** The same native function without the hooks. *)
Definition uninstrumented (body : store -> outcome) (st : store) : outcome :=
  body st.

(** ** Sample stores *)

(** A table of 987 counters, none of them used yet. *)
Definition fresh : store :=
  {[ "OS_nativeFunctionCallCount" := Oints (replicate 987 0) ]}.

(** The same table after [INT_MAX] calls of the native behind ordinal 0. *)
Definition saturated : store :=
  {[ "OS_nativeFunctionCallCount" := Oints (CInt.INT_MAX :: replicate 986 0) ]}.

(** A store with the three telemetry objects and an unrelated one. *)
Definition linked : store :=
  <[ "OS_nativeFunctionCount" := Oint 987 ]>
  (<[ "OS_nativeFunctionNames" := Ostrings OS_FUNCS_names ]>
  (<[ "errno" := Oint 0 ]> fresh)).

(** ** Frame *)

(** Between [st] and [st'] nothing but the counter of [func] has changed:
    the other counters, the number of counters, the two other telemetry
    objects and every other object of the store are as they were. *)
Definition only_counter_changed (func : Z) (st st' : store) : Prop :=
  (forall g, g <> func -> call_count st' g = call_count st g)
  /\ length <$> call_counts st' = length <$> call_counts st
  /\ st' !! "OS_nativeFunctionCount" = st !! "OS_nativeFunctionCount"
  /\ st' !! "OS_nativeFunctionNames" = st !! "OS_nativeFunctionNames"
  /\ (forall x, x <> "OS_nativeFunctionCallCount" -> st' !! x = st !! x).

(** ** Sequences of calls *)

(** The expansions of [OS_NATIVE_ENTER(env, that, f)] for the ordinals [f]
    of [funcs], one after the other; the first undefined behaviour ends the
    run. *)
Fixpoint OS_NATIVE_ENTER_all (defined : list string) (env that : value)
         (funcs : list Z) (st : store) : outcome :=
  match funcs with
  | [] => Ok st
  | f :: funcs' =>
      match OS_NATIVE_ENTER defined env that f st with
      | Ok st' => OS_NATIVE_ENTER_all defined env that funcs' st'
      | Fail e => Fail e
      end
  end.

(** How often the ordinal [g] occurs in [funcs]. *)
Fixpoint occurrences (g : Z) (funcs : list Z) : Z :=
  match funcs with
  | [] => 0
  | f :: funcs' => (if Z.eqb f g then 1 else 0) + occurrences g funcs'
  end.

Definition sum_cells (cells : list Z) : Z := foldr Z.add 0 cells.

(** The sum of all counters: the number of calls counted so far. *)
Definition total_calls (st : store) : option Z := sum_cells <$> call_counts st.

(** ** The telemetry table *)

(** [OS_nativeFunctionNames[func]] *)
Definition function_name (st : store) (func : Z) : option string :=
  match st !! "OS_nativeFunctionNames" with
  | Some (Ostrings names) => index names func
  | _ => None
  end.

(** [OS_nativeFunctionCount] *)
Definition function_count (st : store) : option Z :=
  match st !! "OS_nativeFunctionCount" with
  | Some (Oint n) => Some n
  | _ => None
  end.

(** The object [o] is of the declared type [ty]. *)
Definition object_has_type (o : object) (ty : ctype) : bool :=
  match o, ty with
  | Oint _, Tint => true
  | Oints _, Tarray Tint => true
  | Ostrings _, Tarray (Tpointer Tchar) => true
  | _, _ => false
  end.

(** Behind every external declaration of the unit there is an object of the
    declared type. *)
Definition conforms (tu : list line) (st : store) : Prop :=
  forall x ty,
    (x, ty) ∈ externs tu ->
    exists o, st !! x = Some o /\ object_has_type o ty = true.

(** Modelled from the spec: the definitions of the three objects are in the
    companion source of the header, which is not part of it; the header
    declares the two arrays without a bound.  The spec describes the objects
    as "a fixed-size array of counters indexed by function ordinal, with
    parallel arrays of human-readable names and a total count": one counter
    and one name per ordinal of [OS_FUNCS], and the number of ordinals as
    the count. *)
Definition telemetry_table (st : store) : Prop :=
  exists counters names,
    call_counts st = Some counters
    /\ st !! "OS_nativeFunctionNames" = Some (Ostrings names)
    /\ function_count st = Some OS_FUNCS_count
    /\ Z.of_nat (length counters) = OS_FUNCS_count
    /\ Z.of_nat (length names) = OS_FUNCS_count.

(** Objects of the declared types that are not laid out as a table: three
    counters, one name, a count of 42. *)
Definition skewed : store :=
  <[ "OS_nativeFunctionCount" := Oint 42 ]>
  (<[ "OS_nativeFunctionNames" := Ostrings ["Call"] ]>
  {[ "OS_nativeFunctionCallCount" := Oints [0; 0; 0] ]}).

(** * Properties *)

(** ** The rule for enumeration constants *)

Module EnumFacts.
Import Enum.

Lemma values_from_length (es : list enumerator) (k : Z) :
  length (values_from k es) = length es.
Proof.
  revert k. induction es as [|[n|n v] es IH]; intros k; cbn; [reflexivity| |];
    rewrite IH; reflexivity.
Qed.

Lemma values_from_names (es : list enumerator) (k : Z) :
  (values_from k es).*1 = enumerator_name <$> es.
Proof.
  revert k. induction es as [|[n|n v] es IH]; intros k; cbn; [reflexivity| |];
    rewrite IH; reflexivity.
Qed.

(** Without explicit constants the [i]-th enumerator after a start value
    [k] has value [k + i]. *)
Lemma values_from_plain (es : list enumerator) (k : Z) (i : nat) n v :
  forallb is_plain es = true ->
  values_from k es !! i = Some (n, v) ->
  v = k + Z.of_nat i.
Proof.
  revert k i. induction es as [|[m|m w] es IH]; intros k i Hp Hi; cbn in *.
  - discriminate.
  - destruct i as [|i]; cbn in Hi.
    + injection Hi as _ <-. lia.
    + apply IH in Hi; [lia | exact Hp].
  - discriminate.
Qed.

End EnumFacts.

(** ** The enumeration *)

Lemma OS_FUNCS_length : length OS_FUNCS = 987%nat.
Proof. vm_compute. reflexivity. Qed.

Lemma OS_FUNCS_count_eq : OS_FUNCS_count = 987.
Proof. vm_compute. reflexivity. Qed.

Lemma OS_FUNCS_plain : forallb Enum.is_plain OS_FUNCS = true.
Proof. vm_compute. reflexivity. Qed.

Lemma OS_FUNCS_values_lookup (i : nat) (n : string) (v : Z) :
  OS_FUNCS_values !! i = Some (n, v) -> v = Z.of_nat i.
Proof.
  intros H. apply (EnumFacts.values_from_plain _ _ _ _ _ OS_FUNCS_plain) in H.
  lia.
Qed.

Lemma is_OS_FUNCS_range (func : Z) :
  is_OS_FUNCS func <-> 0 <= func < OS_FUNCS_count.
Proof.
  rewrite OS_FUNCS_count_eq. unfold is_OS_FUNCS.
  pose proof (EnumFacts.values_from_length OS_FUNCS 0) as Hlen.
  rewrite OS_FUNCS_length in Hlen. fold (Enum.values OS_FUNCS) in Hlen.
  fold OS_FUNCS_values in Hlen.
  split.
  - intros [name Hin].
    apply list_elem_of_lookup in Hin as [i Hi].
    pose proof (lookup_lt_Some _ _ _ Hi) as Hlt.
    apply OS_FUNCS_values_lookup in Hi as ->. lia.
  - intros Hr.
    destruct (lookup_lt_is_Some_2 OS_FUNCS_values (Z.to_nat func)) as [[n v] Hi];
      [lia|].
    pose proof (OS_FUNCS_values_lookup _ _ _ Hi) as ->.
    exists n. apply list_elem_of_lookup. exists (Z.to_nat func).
    rewrite Hi. do 2 f_equal. lia.
Qed.

Lemma OS_FUNCS_values_names : OS_FUNCS_values.*1 = OS_FUNCS_names.
Proof. apply EnumFacts.values_from_names. Qed.

Lemma OS_FUNCS_values_seq :
  OS_FUNCS_values.*2 = Z.of_nat <$> seq 0 (Z.to_nat OS_FUNCS_count).
Proof. vm_compute. reflexivity. Qed.

(** ** Ascending lists *)

Section Ascending.
Context {A : Type} (ltb : A -> A -> bool).
Hypothesis ltb_trans :
  forall x y z, ltb x y = true -> ltb y z = true -> ltb x z = true.
Hypothesis ltb_irrefl : forall x, ltb x x = false.

Lemma ascending_tail (x : A) (l : list A) :
  Listing.ascending ltb (x :: l) = true -> Listing.ascending ltb l = true.
Proof.
  destruct l as [|y l]; [reflexivity|].
  cbn. intros H. apply andb_true_iff in H as [_ H]. exact H.
Qed.

Lemma ascending_above_head (x : A) (l : list A) :
  Listing.ascending ltb (x :: l) = true ->
  Forall (fun y => ltb x y = true) l.
Proof.
  revert x. induction l as [|y l IH]; intros x H; [constructor|].
  cbn in H. apply andb_true_iff in H as [Hxy H].
  constructor; [exact Hxy|].
  eapply Forall_impl; [apply IH, H|].
  intros z Hyz. cbn in Hyz. eapply ltb_trans; eassumption.
Qed.

(** An ascending list has no element twice. *)
Lemma ascending_NoDup (l : list A) :
  Listing.ascending ltb l = true -> NoDup l.
Proof.
  induction l as [|x l IH]; intros H; [constructor|].
  constructor; [|apply IH, (ascending_tail x), H].
  intros Hin. apply ascending_above_head in H.
  rewrite Forall_forall in H. specialize (H x Hin).
  rewrite ltb_irrefl in H. discriminate.
Qed.
End Ascending.

Lemma compare_Lt_trans (a b c : string) :
  String.compare a b = Lt -> String.compare b c = Lt ->
  String.compare a c = Lt.
Proof.
  intros H1 H2. apply String_as_OT.cmp_lt.
  apply (String_as_OT.lt_trans a b c); apply String_as_OT.cmp_lt; assumption.
Qed.

Lemma compare_refl (a : string) : String.compare a a = Eq.
Proof. apply String_as_OT.cmp_eq. reflexivity. Qed.

Lemma key_ltb_trans (a b c : string * string) :
  Listing.key_ltb a b = true -> Listing.key_ltb b c = true ->
  Listing.key_ltb a c = true.
Proof.
  destruct a as [a1 a2], b as [b1 b2], c as [c1 c2].
  unfold Listing.key_ltb, String.ltb. cbn [fst snd].
  destruct (String.compare a1 b1) eqn:E1; try discriminate;
    destruct (String.compare b1 c1) eqn:E2; try discriminate.
  - apply String.compare_eq_iff in E1 as ->. rewrite E2.
    destruct (String.compare a2 b2) eqn:F1; try discriminate.
    destruct (String.compare b2 c2) eqn:F2; try discriminate.
    rewrite (compare_Lt_trans _ _ _ F1 F2). reflexivity.
  - apply String.compare_eq_iff in E1 as ->. rewrite E2. reflexivity.
  - apply String.compare_eq_iff in E2 as <-. rewrite E1. reflexivity.
  - rewrite (compare_Lt_trans _ _ _ E1 E2). reflexivity.
Qed.

Lemma by_method_trans (a b c : string) :
  Listing.by_method a b = true -> Listing.by_method b c = true ->
  Listing.by_method a c = true.
Proof.
  unfold Listing.by_method.
  destruct (Listing.method_key a), (Listing.method_key b),
    (Listing.method_key c); try discriminate.
  apply key_ltb_trans.
Qed.

Lemma by_method_irrefl (a : string) : Listing.by_method a a = false.
Proof.
  unfold Listing.by_method.
  destruct (Listing.method_key a) as [[m g]|]; [|reflexivity].
  unfold Listing.key_ltb, String.ltb. cbn [fst snd].
  rewrite !compare_refl. reflexivity.
Qed.

Lemma OS_FUNCS_names_by_method :
  Listing.ascending Listing.by_method OS_FUNCS_names = true.
Proof. vm_compute. reflexivity. Qed.

Lemma OS_FUNCS_names_NoDup : NoDup OS_FUNCS_names.
Proof.
  apply (ascending_NoDup Listing.by_method by_method_trans by_method_irrefl).
  exact OS_FUNCS_names_by_method.
Qed.

(** C2.  The values of [OS_FUNCS] are contiguous from 0 to N-1: [Call_FUNC],
    the first enumerator, is 0; no enumerator carries an explicit value and
    no value is repeated; each enumerator is one more than its predecessor;
    [strlen_FUNC], the last enumerator, is N-1, with N the number of
    enumerators.  The enumeration lies outside the conditional group, so
    the values are the same whatever macros are defined. *)
Theorem OS_FUNCS_contiguous :
  head OS_FUNCS_names = Some "Call_FUNC"
  /\ ordinal "Call_FUNC" = Some 0
  /\ forallb Enum.is_plain OS_FUNCS = true
  /\ NoDup (OS_FUNCS_values.*2)
  /\ (forall (i : nat) n v n' v',
         OS_FUNCS_values !! i = Some (n, v) ->
         OS_FUNCS_values !! S i = Some (n', v') ->
         v' = v + 1)
  /\ last OS_FUNCS_names = Some "strlen_FUNC"
  /\ ordinal "strlen_FUNC" = Some (OS_FUNCS_count - 1)
  /\ OS_FUNCS_values.*2 = Z.of_nat <$> seq 0 (Z.to_nat OS_FUNCS_count)
  /\ (forall defined,
         enumeration "OS_FUNCS" (translation_unit defined) = Some OS_FUNCS).
Proof.
  split; [vm_compute; reflexivity|].
  split; [vm_compute; reflexivity|].
  split; [exact OS_FUNCS_plain|].
  split.
  { rewrite OS_FUNCS_values_seq.
    apply NoDup_fmap_2; [intros x y; lia | apply NoDup_seq]. }
  split.
  { intros i n v n' v' H1 H2.
    apply OS_FUNCS_values_lookup in H1 as ->.
    apply OS_FUNCS_values_lookup in H2 as ->. lia. }
  split; [vm_compute; reflexivity|].
  split; [vm_compute; reflexivity|].
  split; [exact OS_FUNCS_values_seq|].
  intros defined. unfold translation_unit, os_stats_h.
  cbn [preprocess].
  destruct (bool_decide ("NATIVE_STATS" ∈ defined)); reflexivity.
Qed.

(** C9, as stated, fails: the enumerators are not listed in ascending ASCII
    order.  [_1g_1list_1free_FUNC] (ordinal 133) comes before
    [_1g_1list_1free_11_FUNC] (ordinal 134), and compares above it. *)
Lemma OS_FUNCS_not_ascii_sorted :
  OS_FUNCS_names !! 133%nat = Some "_1g_1list_1free_FUNC"
  /\ OS_FUNCS_names !! 134%nat = Some "_1g_1list_1free_11_FUNC"
  /\ String.compare "_1g_1list_1free_FUNC" "_1g_1list_1free_11_FUNC" = Gt
  /\ Listing.ascending String.ltb OS_FUNCS_names = false.
Proof. repeat split; vm_compute; reflexivity. Qed.

(** C9, amended.  The enumerator names are pairwise distinct, from
    [Call_FUNC] (first) to [strlen_FUNC] (last), so the mapping from
    ordinals to names is injective; they are listed in strictly ascending
    order of the native method they name: ASCII order of the method name,
    then of the encoded signature that tells overloads apart. *)
Theorem OS_FUNCS_names_distinct_sorted :
  NoDup OS_FUNCS_names
  /\ head OS_FUNCS_names = Some "Call_FUNC"
  /\ last OS_FUNCS_names = Some "strlen_FUNC"
  /\ (forall (i j : nat) name,
         OS_FUNCS_names !! i = Some name ->
         OS_FUNCS_names !! j = Some name -> i = j)
  /\ (forall (f g : Z) name,
         (name, f) ∈ OS_FUNCS_values -> (name, g) ∈ OS_FUNCS_values -> f = g)
  /\ Listing.ascending Listing.by_method OS_FUNCS_names = true.
Proof.
  split; [exact OS_FUNCS_names_NoDup|].
  split; [vm_compute; reflexivity|].
  split; [vm_compute; reflexivity|].
  split.
  { intros i j name Hi Hj.
    exact (NoDup_lookup _ _ _ _ OS_FUNCS_names_NoDup Hi Hj). }
  split.
  { intros f g name Hf Hg.
    apply list_elem_of_lookup in Hf as [i Hi].
    apply list_elem_of_lookup in Hg as [j Hj].
    assert (Hni : OS_FUNCS_names !! i = Some name).
    { rewrite <- OS_FUNCS_values_names, list_lookup_fmap, Hi. reflexivity. }
    assert (Hnj : OS_FUNCS_names !! j = Some name).
    { rewrite <- OS_FUNCS_values_names, list_lookup_fmap, Hj. reflexivity. }
    pose proof (NoDup_lookup _ _ _ _ OS_FUNCS_names_NoDup Hni Hnj) as ->.
    congruence. }
  exact OS_FUNCS_names_by_method.
Qed.

(** ** The header in its two configurations *)

Lemma translation_unit_cases (defined : list string) :
  translation_unit defined =
  ((if native_stats defined
   then [ Extern Tint "OS_nativeFunctionCount";
          Extern (Tarray Tint) "OS_nativeFunctionCallCount";
          Extern (Tarray (Tpointer Tchar)) "OS_nativeFunctionNames";
          Define "OS_NATIVE_ENTER" ["env"; "that"; "func"]
                 [PostIncrement "OS_nativeFunctionCallCount" "func"];
          Define "OS_NATIVE_EXIT" ["env"; "that"; "func"] [] ]
   else [ Define "OS_NATIVE_ENTER" ["env"; "that"; "func"] [];
          Define "OS_NATIVE_EXIT" ["env"; "that"; "func"] [] ])
  ++ [ TypedefEnum "OS_FUNCS" OS_FUNCS ])%list.
Proof.
  unfold translation_unit, os_stats_h, native_stats. cbn [preprocess].
  destruct (bool_decide ("NATIVE_STATS" ∈ defined)); reflexivity.
Qed.

Lemma native_stats_on (defined : list string) :
  "NATIVE_STATS" ∈ defined -> native_stats defined = true.
Proof. intros H. apply bool_decide_eq_true_2, H. Qed.

Lemma native_stats_off (defined : list string) :
  "NATIVE_STATS" ∉ defined -> native_stats defined = false.
Proof. intros H. apply bool_decide_eq_false_2, H. Qed.

Lemma OS_NATIVE_ENTER_unfold defined env that func st :
  OS_NATIVE_ENTER defined env that func st =
  if native_stats defined
  then post_increment "OS_nativeFunctionCallCount" func st
  else Ok st.
Proof.
  unfold OS_NATIVE_ENTER. rewrite translation_unit_cases.
  destruct (native_stats defined); cbn; [|reflexivity].
  destruct (post_increment _ _ _); reflexivity.
Qed.

Lemma OS_NATIVE_EXIT_unfold defined env that func st :
  OS_NATIVE_EXIT defined env that func st = Ok st.
Proof.
  unfold OS_NATIVE_EXIT. rewrite translation_unit_cases.
  destruct (native_stats defined); reflexivity.
Qed.

Lemma expansion_ENTER defined :
  expansion (translation_unit defined) "OS_NATIVE_ENTER" =
  Some (if native_stats defined
        then [PostIncrement "OS_nativeFunctionCallCount" "func"]
        else []).
Proof.
  rewrite translation_unit_cases. destruct (native_stats defined); reflexivity.
Qed.

Lemma expansion_EXIT defined :
  expansion (translation_unit defined) "OS_NATIVE_EXIT" = Some [].
Proof.
  rewrite translation_unit_cases. destruct (native_stats defined); reflexivity.
Qed.

(** ** The increment *)

Lemma index_Some {A : Type} (cells : list A) (i : Z) (x : A) :
  index cells i = Some x <-> 0 <= i /\ cells !! Z.to_nat i = Some x.
Proof.
  unfold index. destruct (Z.leb_spec 0 i); split; try tauto.
  - discriminate.
  - lia.
Qed.

Lemma index_in_bounds {A : Type} (cells : list A) (i : Z) :
  0 <= i < Z.of_nat (length cells) -> is_Some (index cells i).
Proof.
  intros H. unfold index. destruct (Z.leb_spec 0 i); [|lia].
  apply lookup_lt_is_Some. lia.
Qed.

Lemma index_insert_eq (cells : list Z) (i : Z) (c x : Z) :
  index cells i = Some c ->
  index (<[Z.to_nat i := x]> cells) i = Some x.
Proof.
  rewrite !index_Some. intros [H0 Hc]. split; [exact H0|].
  apply list_lookup_insert_eq. eapply lookup_lt_Some, Hc.
Qed.

Lemma index_insert_ne (cells : list Z) (i g : Z) (x : Z) :
  0 <= i -> g <> i ->
  index (<[Z.to_nat i := x]> cells) g = index cells g.
Proof.
  intros H0 Hne. unfold index. destruct (Z.leb_spec 0 g); [|reflexivity].
  apply list_lookup_insert_ne. lia.
Qed.

(** [post_increment] succeeds exactly when the cell exists and is below
    [INT_MAX]; the new store is the old one with that cell incremented. *)
Lemma post_increment_Ok (a : string) (i : Z) (st st' : store) :
  post_increment a i st = Ok st' <->
  exists cells c,
    st !! a = Some (Oints cells) /\ index cells i = Some c
    /\ c < CInt.INT_MAX
    /\ st' = <[a := Oints (<[Z.to_nat i := c + 1]> cells)]> st.
Proof.
  unfold post_increment. split.
  - destruct (st !! a) as [[n|cells|names]|] eqn:Ha; try discriminate.
    destruct (index cells i) as [c|] eqn:Hi; try discriminate.
    destruct (Z.ltb_spec c CInt.INT_MAX); try discriminate.
    intros [= <-]. exists cells, c. repeat split; assumption || reflexivity.
  - intros (cells & c & -> & -> & Hc & ->).
    destruct (Z.ltb_spec c CInt.INT_MAX); [reflexivity | lia].
Qed.

(** The incremented array still holds values of type [int]. *)
Lemma post_increment_in_range (a : string) (i : Z) (st st' : store)
      (cells : list Z) :
  post_increment a i st = Ok st' ->
  st !! a = Some (Oints cells) ->
  Forall CInt.in_range cells ->
  exists cells',
    st' !! a = Some (Oints cells') /\ Forall CInt.in_range cells'.
Proof.
  intros H Ha Hr. apply post_increment_Ok in H as (cs & c & Ha' & Hc & Hlt & ->).
  rewrite Ha in Ha'. injection Ha' as <-.
  apply index_Some in Hc as [_ Hc].
  eexists. split; [apply lookup_insert_eq|].
  apply Forall_insert; [exact Hr|].
  pose proof (Forall_lookup_1 _ _ _ _ Hr Hc) as [Hlo Hhi].
  unfold CInt.in_range. lia.
Qed.

Lemma call_counts_Some (st : store) (cells : list Z) :
  call_counts st = Some cells <->
  st !! "OS_nativeFunctionCallCount" = Some (Oints cells).
Proof.
  unfold call_counts.
  destruct (st !! "OS_nativeFunctionCallCount") as [[n|cs|names]|];
    split; intros H; try discriminate; congruence.
Qed.

Lemma call_counts_insert (st : store) (cells : list Z) :
  call_counts (<["OS_nativeFunctionCallCount" := Oints cells]> st) = Some cells.
Proof. apply call_counts_Some, lookup_insert_eq. Qed.

(** The whole effect of [OS_NATIVE_ENTER] in the instrumented build. *)
Lemma OS_NATIVE_ENTER_Ok defined env that func st st' :
  "NATIVE_STATS" ∈ defined ->
  OS_NATIVE_ENTER defined env that func st = Ok st' <->
  exists cells c,
    call_counts st = Some cells /\ index cells func = Some c
    /\ c < CInt.INT_MAX
    /\ st' = <["OS_nativeFunctionCallCount" :=
                 Oints (<[Z.to_nat func := c + 1]> cells)]> st.
Proof.
  intros Hon. rewrite OS_NATIVE_ENTER_unfold, (native_stats_on _ Hon).
  rewrite post_increment_Ok. setoid_rewrite call_counts_Some. reflexivity.
Qed.

Lemma counter_table_call_count (n : Z) (st : store) (func : Z) :
  counter_table n st -> 0 <= func < n -> is_Some (call_count st func).
Proof.
  intros (cells & Hc & Hlen) Hr. unfold call_count. rewrite Hc.
  apply index_in_bounds. lia.
Qed.

(** A counter below [INT_MAX] goes up by one. *)
Lemma OS_NATIVE_ENTER_counts defined env that func st c :
  "NATIVE_STATS" ∈ defined ->
  call_count st func = Some c ->
  c < CInt.INT_MAX ->
  exists st',
    OS_NATIVE_ENTER defined env that func st = Ok st'
    /\ call_count st' func = Some (c + 1).
Proof.
  intros Hon Hc Hb. unfold call_count in Hc.
  destruct (call_counts st) as [cells|] eqn:Hcells; [|discriminate].
  eexists. split.
  - apply OS_NATIVE_ENTER_Ok; [exact Hon|].
    exists cells, c. repeat split; assumption || reflexivity.
  - unfold call_count. rewrite call_counts_insert.
    eapply index_insert_eq, Hc.
Qed.

Lemma OS_NATIVE_ENTER_only_counter defined env that func st st' :
  "NATIVE_STATS" ∈ defined ->
  OS_NATIVE_ENTER defined env that func st = Ok st' ->
  only_counter_changed func st st'.
Proof.
  intros Hon H. apply OS_NATIVE_ENTER_Ok in H; [|exact Hon].
  destruct H as (cells & c & Hcells & Hc & _ & ->).
  apply index_Some in Hc as [H0 Hc].
  unfold only_counter_changed. repeat split.
  - intros g Hg. unfold call_count.
    rewrite call_counts_insert, Hcells. apply index_insert_ne; assumption.
  - rewrite call_counts_insert, Hcells. cbn. rewrite length_insert. reflexivity.
  - apply lookup_insert_ne. discriminate.
  - apply lookup_insert_ne. discriminate.
  - intros x Hx. apply lookup_insert_ne. congruence.
Qed.

(** ** The claims about the macros *)

(** C1, as stated, fails: with the counter of ordinal 0 at [INT_MAX] the
    increment overflows [int], and no store with the counter one higher is
    produced. *)
Lemma OS_NATIVE_ENTER_overflow :
  is_OS_FUNCS 0
  /\ counter_table OS_FUNCS_count saturated
  /\ call_count saturated 0 = Some CInt.INT_MAX
  /\ OS_NATIVE_ENTER ["NATIVE_STATS"] (Vptr 0) (Vptr 0) 0 saturated
     = Fail (Overflow "OS_nativeFunctionCallCount" 0)
  /\ ~ (exists c st',
          call_count saturated 0 = Some c
          /\ OS_NATIVE_ENTER ["NATIVE_STATS"] (Vptr 0) (Vptr 0) 0 saturated
             = Ok st'
          /\ call_count st' 0 = Some (c + 1)).
Proof.
  assert (E : OS_NATIVE_ENTER ["NATIVE_STATS"] (Vptr 0) (Vptr 0) 0 saturated
              = Fail (Overflow "OS_nativeFunctionCallCount" 0))
    by (vm_compute; reflexivity).
  split; [apply is_OS_FUNCS_range; rewrite OS_FUNCS_count_eq; lia|].
  split; [eexists; split; vm_compute; reflexivity|].
  split; [vm_compute; reflexivity|].
  split; [exact E|].
  intros (c & st' & _ & H & _). rewrite E in H. discriminate.
Qed.

(** C1, amended.  With [NATIVE_STATS] defined, for every ordinal [func] of
    [OS_FUNCS] and every table of counters in which the counter of [func] is
    below [INT_MAX], [OS_NATIVE_ENTER(env, that, func)] increments
    [OS_nativeFunctionCallCount[func]] by exactly one. *)
Theorem OS_NATIVE_ENTER_increments defined env that func st :
  "NATIVE_STATS" ∈ defined ->
  is_OS_FUNCS func ->
  counter_table OS_FUNCS_count st ->
  below_INT_MAX st func ->
  exists c st',
    call_count st func = Some c
    /\ OS_NATIVE_ENTER defined env that func st = Ok st'
    /\ call_count st' func = Some (c + 1).
Proof.
  intros Hon Hf Ht Hb.
  destruct (counter_table_call_count _ _ func Ht) as [c Hc];
    [apply is_OS_FUNCS_range, Hf|].
  destruct (OS_NATIVE_ENTER_counts defined env that func st c Hon Hc (Hb c Hc))
    as (st' & H & Hc').
  exists c, st'. repeat split; assumption.
Qed.

Lemma fresh_counter_table : counter_table OS_FUNCS_count fresh.
Proof. eexists; split; vm_compute; reflexivity. Defined.

Lemma fresh_below_INT_MAX (func : Z) : below_INT_MAX fresh func.
Proof.
  intros c H. unfold call_count in H.
  assert (Hc : call_counts fresh = Some (replicate 987 0))
    by (vm_compute; reflexivity).
  rewrite Hc in H. apply index_Some in H as [_ H].
  apply lookup_replicate in H as [-> _]. vm_compute. reflexivity.
Qed.

Lemma gtk_main_is_OS_FUNCS : is_OS_FUNCS 533.
Proof.
  exists "_1gtk_1main_FUNC". apply list_elem_of_lookup. exists 533%nat.
  vm_compute. reflexivity.
Qed.

Lemma NATIVE_STATS_given : "NATIVE_STATS" ∈ ["NATIVE_STATS"].
Proof. apply list_elem_of_here. Qed.

Lemma NATIVE_STATS_not_given : "NATIVE_STATS" ∉ @nil string.
Proof. apply not_elem_of_nil. Qed.

Lemma OS_NATIVE_ENTER_increments_witness :
  exists c st',
    call_count fresh 533 = Some c
    /\ OS_NATIVE_ENTER ["NATIVE_STATS"] (Vptr 0) (Vptr 0) 533 fresh = Ok st'
    /\ call_count st' 533 = Some (c + 1).
Proof.
  apply (OS_NATIVE_ENTER_increments ["NATIVE_STATS"] (Vptr 0) (Vptr 0) 533 fresh).
  - exact NATIVE_STATS_given.
  - exact gtk_main_is_OS_FUNCS.
  - exact fresh_counter_table.
  - exact (fresh_below_INT_MAX 533).
Defined.

(** C3, as stated, fails: with [NATIVE_STATS] defined [OS_NATIVE_EXIT] leaves
    the counter of its ordinal as it is. *)
Lemma OS_NATIVE_EXIT_counts_nothing :
  call_count fresh 533 = Some 0
  /\ OS_NATIVE_EXIT ["NATIVE_STATS"] (Vptr 0) (Vptr 0) 533 fresh = Ok fresh
  /\ ~ (exists c st',
          call_count fresh 533 = Some c
          /\ OS_NATIVE_EXIT ["NATIVE_STATS"] (Vptr 0) (Vptr 0) 533 fresh
             = Ok st'
          /\ call_count st' 533 = Some (c + 1)).
Proof.
  assert (C : call_count fresh 533 = Some 0) by (vm_compute; reflexivity).
  split; [exact C|]. split; [apply OS_NATIVE_EXIT_unfold|].
  intros (c & st' & Hc & H & Hc').
  rewrite OS_NATIVE_EXIT_unfold in H. injection H as <-.
  rewrite C in Hc, Hc'. injection Hc as <-. discriminate.
Qed.

(** C3, amended.  The header provides the two macros [OS_NATIVE_ENTER] and
    [OS_NATIVE_EXIT].  With [NATIVE_STATS] defined, [OS_NATIVE_ENTER]
    increments [OS_nativeFunctionCallCount[func]] for every ordinal [func]
    whose counter is below [INT_MAX]; [OS_NATIVE_EXIT] expands to nothing and
    increments no counter. *)
Theorem instrumented_macros defined env that func st :
  "NATIVE_STATS" ∈ defined ->
  is_OS_FUNCS func ->
  counter_table OS_FUNCS_count st ->
  below_INT_MAX st func ->
  (macro "OS_NATIVE_ENTER" (translation_unit defined)
   = Some (["env"; "that"; "func"],
           [PostIncrement "OS_nativeFunctionCallCount" "func"])
   /\ macro "OS_NATIVE_EXIT" (translation_unit defined)
      = Some (["env"; "that"; "func"], []))
  /\ (exists c st',
         call_count st func = Some c
         /\ OS_NATIVE_ENTER defined env that func st = Ok st'
         /\ call_count st' func = Some (c + 1))
  /\ OS_NATIVE_EXIT defined env that func st = Ok st.
Proof.
  intros Hon Hf Ht Hb. split; [|split].
  - rewrite translation_unit_cases, (native_stats_on _ Hon).
    split; reflexivity.
  - destruct (counter_table_call_count _ _ func Ht) as [c Hc];
      [apply is_OS_FUNCS_range, Hf|].
    destruct (OS_NATIVE_ENTER_counts defined env that func st c Hon Hc
                (Hb c Hc)) as (st' & H & Hc').
    exists c, st'. repeat split; assumption.
  - apply OS_NATIVE_EXIT_unfold.
Qed.

Lemma instrumented_macros_witness :
  (exists c st',
      call_count fresh 0 = Some c
      /\ OS_NATIVE_ENTER ["NATIVE_STATS"] (Vptr 0) (Vptr 0) 0 fresh = Ok st'
      /\ call_count st' 0 = Some (c + 1))
  /\ OS_NATIVE_EXIT ["NATIVE_STATS"] (Vptr 0) (Vptr 0) 0 fresh = Ok fresh.
Proof.
  apply (instrumented_macros ["NATIVE_STATS"] (Vptr 0) (Vptr 0) 0 fresh).
  - exact NATIVE_STATS_given.
  - apply is_OS_FUNCS_range. rewrite OS_FUNCS_count_eq. lia.
  - exact fresh_counter_table.
  - exact (fresh_below_INT_MAX 0).
Defined.

(** C4.  Without [NATIVE_STATS] the instrumentation is a no-op: for every
    [func] and every store, [OS_NATIVE_ENTER] and [OS_NATIVE_EXIT] expand to
    nothing and the store after either is the store before; a native
    function with the hooks behaves as the same function without them. *)
Theorem instrumentation_off defined env that func st :
  "NATIVE_STATS" ∉ defined ->
  expansion (translation_unit defined) "OS_NATIVE_ENTER" = Some []
  /\ expansion (translation_unit defined) "OS_NATIVE_EXIT" = Some []
  /\ OS_NATIVE_ENTER defined env that func st = Ok st
  /\ OS_NATIVE_EXIT defined env that func st = Ok st
  /\ forall body,
       instrumented defined env that func body st = uninstrumented body st.
Proof.
  intros Hoff. pose proof (native_stats_off _ Hoff) as E.
  assert (Henter : forall s, OS_NATIVE_ENTER defined env that func s = Ok s)
    by (intros s; rewrite OS_NATIVE_ENTER_unfold, E; reflexivity).
  split; [rewrite expansion_ENTER, E; reflexivity|].
  split; [apply expansion_EXIT|].
  split; [apply Henter|].
  split; [apply OS_NATIVE_EXIT_unfold|].
  intros body. unfold instrumented, uninstrumented. rewrite Henter.
  destruct (body st) as [st2|e]; [apply OS_NATIVE_EXIT_unfold | reflexivity].
Qed.

Lemma instrumentation_off_witness :
  OS_NATIVE_ENTER [] (Vptr 0) (Vptr 0) 533 linked = Ok linked
  /\ OS_NATIVE_EXIT [] (Vptr 0) (Vptr 0) 533 linked = Ok linked.
Proof.
  destruct (instrumentation_off [] (Vptr 0) (Vptr 0) 533 linked
              NATIVE_STATS_not_given) as (_ & _ & H1 & H2 & _).
  split; [exact H1 | exact H2].
Defined.

(** C5.  With [NATIVE_STATS] defined, for every ordinal [func],
    [OS_NATIVE_ENTER(env, that, func)] changes the counter of [func] only:
    every counter [OS_nativeFunctionCallCount[g]] with [g <> func],
    [OS_nativeFunctionCount], [OS_nativeFunctionNames] and every other
    object are unchanged.  The expansion has a result whenever the counter
    of [func] is below [INT_MAX]. *)
Theorem OS_NATIVE_ENTER_frame defined env that func st :
  "NATIVE_STATS" ∈ defined ->
  is_OS_FUNCS func ->
  counter_table OS_FUNCS_count st ->
  (below_INT_MAX st func ->
   exists st', OS_NATIVE_ENTER defined env that func st = Ok st')
  /\ (forall st',
         OS_NATIVE_ENTER defined env that func st = Ok st' ->
         only_counter_changed func st st').
Proof.
  intros Hon Hf Ht. split.
  - intros Hb.
    destruct (counter_table_call_count _ _ func Ht) as [c Hc];
      [apply is_OS_FUNCS_range, Hf|].
    destruct (OS_NATIVE_ENTER_counts defined env that func st c Hon Hc
                (Hb c Hc)) as (st' & H & _).
    exists st'. exact H.
  - intros st'. apply OS_NATIVE_ENTER_only_counter, Hon.
Qed.

Lemma linked_counter_table : counter_table OS_FUNCS_count linked.
Proof. eexists; split; vm_compute; reflexivity. Defined.

Lemma linked_below_INT_MAX (func : Z) : below_INT_MAX linked func.
Proof.
  intros c H. unfold call_count in H.
  assert (Hc : call_counts linked = Some (replicate 987 0))
    by (vm_compute; reflexivity).
  rewrite Hc in H. apply index_Some in H as [_ H].
  apply lookup_replicate in H as [-> _]. vm_compute. reflexivity.
Qed.

Lemma OS_NATIVE_ENTER_frame_witness :
  exists st',
    OS_NATIVE_ENTER ["NATIVE_STATS"] (Vptr 0) (Vptr 0) 533 linked = Ok st'
    /\ only_counter_changed 533 linked st'.
Proof.
  destruct (OS_NATIVE_ENTER_frame ["NATIVE_STATS"] (Vptr 0) (Vptr 0) 533 linked
              NATIVE_STATS_given gtk_main_is_OS_FUNCS linked_counter_table)
    as [Hex Hframe].
  destruct (Hex (linked_below_INT_MAX 533)) as [st' H].
  exists st'. split; [exact H | exact (Hframe st' H)].
Defined.

Lemma index_is_Some {A : Type} (cells : list A) (i : Z) :
  is_Some (index cells i) <-> 0 <= i < Z.of_nat (length cells).
Proof.
  unfold index. destruct (Z.leb_spec 0 i).
  - rewrite lookup_lt_is_Some. lia.
  - split; [intros [x Hx]; discriminate | lia].
Qed.

Lemma externs_cases (defined : list string) :
  externs (translation_unit defined) =
  (if native_stats defined
   then [ ("OS_nativeFunctionCount", Tint);
          ("OS_nativeFunctionCallCount", Tarray Tint);
          ("OS_nativeFunctionNames", Tarray (Tpointer Tchar)) ]
   else []).
Proof.
  rewrite translation_unit_cases. destruct (native_stats defined); reflexivity.
Qed.

(** The layout of the table is kept by both macros. *)
Lemma telemetry_table_kept defined env that func st st' :
  telemetry_table st ->
  OS_NATIVE_ENTER defined env that func st = Ok st'
  \/ OS_NATIVE_EXIT defined env that func st = Ok st' ->
  telemetry_table st'.
Proof.
  intros Ht [H|H].
  - rewrite OS_NATIVE_ENTER_unfold in H.
    destruct (native_stats defined); [|injection H as <-; exact Ht].
    destruct Ht as (counters & names & Hc & Hn & Hcount & Hlc & Hln).
    apply post_increment_Ok in H as (cells & c & Ha & _ & _ & ->).
    apply call_counts_Some in Hc. rewrite Hc in Ha. injection Ha as <-.
    exists (<[Z.to_nat func := c + 1]> counters), names.
    split; [apply call_counts_insert|].
    split; [rewrite lookup_insert_ne by discriminate; exact Hn|].
    split.
    { unfold function_count in *.
      rewrite lookup_insert_ne by discriminate. exact Hcount. }
    split; [rewrite length_insert; exact Hlc | exact Hln].
  - rewrite OS_NATIVE_EXIT_unfold in H. injection H as <-. exact Ht.
Qed.

(** The declarations alone do not make a table: the header leaves the
    bounds of both arrays open, so objects of the declared types need not
    be laid out in parallel. *)
Lemma header_leaves_bounds_open :
  conforms (translation_unit ["NATIVE_STATS"]) skewed
  /\ ~ telemetry_table skewed.
Proof.
  split.
  - intros x ty Hin. rewrite externs_cases in Hin.
    change (native_stats ["NATIVE_STATS"]) with true in Hin.
    repeat (apply elem_of_cons in Hin as [[= -> ->]|Hin];
            [eexists; split; vm_compute; reflexivity|]).
    apply elem_of_nil in Hin. contradiction.
  - intros (counters & names & _ & _ & Hcount & _).
    vm_compute in Hcount. discriminate.
Qed.

(** C6.  In the instrumented configuration the header declares the three
    objects of the telemetry table: the total [OS_nativeFunctionCount] (an
    [int]), the array of counters [OS_nativeFunctionCallCount] (of [int])
    and the array of names [OS_nativeFunctionNames] (of [char*]); without
    [NATIVE_STATS] it declares none of them.  On objects laid out as a
    table, these declarations are met; the count is the number of
    enumerators; the counters and the names are parallel and indexed by
    function ordinal (an index has a counter, and has a name, exactly when
    it is an ordinal of [OS_FUNCS]); and the table is of fixed size: both
    macros keep the layout, and neither changes the number of counters of
    any store. *)
Theorem telemetry_declarations defined :
  externs (translation_unit defined) =
  (if native_stats defined
   then [ ("OS_nativeFunctionCount", Tint);
          ("OS_nativeFunctionCallCount", Tarray Tint);
          ("OS_nativeFunctionNames", Tarray (Tpointer Tchar)) ]
   else [])
  /\ (forall st,
         telemetry_table st ->
         conforms (translation_unit defined) st
         /\ function_count st = Some OS_FUNCS_count
         /\ (forall func, is_Some (call_count st func) <-> is_OS_FUNCS func)
         /\ (forall func, is_Some (function_name st func) <-> is_OS_FUNCS func)
         /\ (forall env that func st',
                OS_NATIVE_ENTER defined env that func st = Ok st'
                \/ OS_NATIVE_EXIT defined env that func st = Ok st' ->
                telemetry_table st'))
  /\ (forall env that func st st',
         OS_NATIVE_ENTER defined env that func st = Ok st'
         \/ OS_NATIVE_EXIT defined env that func st = Ok st' ->
         length <$> call_counts st' = length <$> call_counts st).
Proof.
  split; [apply externs_cases|]. split.
  - intros st Ht. pose proof Ht as (counters & names & Hc & Hn & Hcount & Hlc & Hln).
    split; [|split; [exact Hcount|split; [|split]]].
    + intros x ty Hin. rewrite externs_cases in Hin.
      destruct (native_stats defined);
        [|apply elem_of_nil in Hin; contradiction].
      apply call_counts_Some in Hc. unfold function_count in Hcount.
      destruct (st !! "OS_nativeFunctionCount") as [[n| |]|] eqn:Hn0;
        try discriminate.
      apply elem_of_cons in Hin as [[= -> ->]|Hin];
        [exists (Oint n); split; [exact Hn0 | reflexivity]|].
      apply elem_of_cons in Hin as [[= -> ->]|Hin];
        [exists (Oints counters); split; [exact Hc | reflexivity]|].
      apply elem_of_cons in Hin as [[= -> ->]|Hin];
        [exists (Ostrings names); split; [exact Hn | reflexivity]|].
      apply elem_of_nil in Hin. contradiction.
    + intros func. unfold call_count. rewrite Hc.
      rewrite index_is_Some, is_OS_FUNCS_range, Hlc. reflexivity.
    + intros func. unfold function_name. rewrite Hn.
      rewrite index_is_Some, is_OS_FUNCS_range, Hln. reflexivity.
    + intros env that func st'. apply telemetry_table_kept, Ht.
  - intros env that func st st' [H|H].
    + rewrite OS_NATIVE_ENTER_unfold in H.
      destruct (native_stats defined) eqn:E.
      * apply post_increment_Ok in H as (cells & c & Ha & _ & _ & ->).
        apply call_counts_Some in Ha.
        rewrite call_counts_insert, Ha. cbn. rewrite length_insert. reflexivity.
      * injection H as <-. reflexivity.
    + rewrite OS_NATIVE_EXIT_unfold in H. injection H as <-. reflexivity.
Qed.

Lemma linked_telemetry_table : telemetry_table linked.
Proof.
  exists (replicate 987 0), OS_FUNCS_names.
  repeat split; vm_compute; reflexivity.
Defined.

Lemma strlen_is_OS_FUNCS : is_OS_FUNCS 986.
Proof. apply is_OS_FUNCS_range. rewrite OS_FUNCS_count_eq. lia. Qed.

Lemma telemetry_declarations_witness :
  conforms (translation_unit ["NATIVE_STATS"]) linked
  /\ function_count linked = Some OS_FUNCS_count
  /\ is_Some (call_count linked 986)
  /\ is_Some (function_name linked 986)
  /\ ~ is_Some (call_count linked 987)
  /\ ~ is_Some (function_name linked 987)
  /\ exists st',
       OS_NATIVE_ENTER ["NATIVE_STATS"] (Vptr 0) (Vptr 0) 533 linked = Ok st'
       /\ telemetry_table st'.
Proof.
  destruct (proj1 (proj2 (telemetry_declarations ["NATIVE_STATS"])) linked
              linked_telemetry_table) as (Hconf & Hcount & Hcc & Hfn & Hkept).
  assert (Hout : ~ is_OS_FUNCS 987)
    by (rewrite is_OS_FUNCS_range, OS_FUNCS_count_eq; lia).
  split; [exact Hconf|]. split; [exact Hcount|].
  split; [apply Hcc, strlen_is_OS_FUNCS|].
  split; [apply Hfn, strlen_is_OS_FUNCS|].
  split; [intros H; apply Hout, Hcc, H|].
  split; [intros H; apply Hout, Hfn, H|].
  destruct (OS_NATIVE_ENTER_counts ["NATIVE_STATS"] (Vptr 0) (Vptr 0) 533
              linked 0 NATIVE_STATS_given) as (st' & H & _);
    [vm_compute; reflexivity | vm_compute; reflexivity |].
  exists st'. split; [exact H|].
  apply (Hkept (Vptr 0) (Vptr 0) 533 st'). left. exact H.
Defined.

(** C8.  [OS_NATIVE_EXIT] is a no-op in both configurations: whether or not
    [NATIVE_STATS] is defined, for every [func] and every store,
    [OS_NATIVE_EXIT(env, that, func)] expands to nothing and leaves the
    store, counters included, as it is. *)
Theorem OS_NATIVE_EXIT_noop defined env that func st :
  expansion (translation_unit defined) "OS_NATIVE_EXIT" = Some []
  /\ OS_NATIVE_EXIT defined env that func st = Ok st.
Proof. split; [apply expansion_EXIT | apply OS_NATIVE_EXIT_unfold]. Qed.

(** C10.  For a valid value of [OS_FUNCS] ([0 <= func <= strlen_FUNC], that
    is [0 <= func <= 986]) and a table of as many counters as there are
    enumerators (987), the access [OS_nativeFunctionCallCount[func]] of
    [OS_NATIVE_ENTER] is inside the table: the counter exists and the
    expansion never ends in the out-of-bounds error. *)
Theorem OS_NATIVE_ENTER_in_bounds defined env that func st :
  0 <= func <= 986 ->
  counter_table 987 st ->
  ordinal "strlen_FUNC" = Some 986
  /\ OS_FUNCS_count = 987
  /\ is_OS_FUNCS func
  /\ is_Some (call_count st func)
  /\ forall a i,
       OS_NATIVE_ENTER defined env that func st <> Fail (OutOfBounds a i).
Proof.
  intros Hr Ht.
  assert (Hc : is_Some (call_count st func))
    by (apply (counter_table_call_count 987); [exact Ht | lia]).
  split; [vm_compute; reflexivity|].
  split; [exact OS_FUNCS_count_eq|].
  split; [apply is_OS_FUNCS_range; rewrite OS_FUNCS_count_eq; lia|].
  split; [exact Hc|].
  intros a i. rewrite OS_NATIVE_ENTER_unfold.
  destruct (native_stats defined); [|discriminate].
  destruct Hc as [c Hc]. unfold call_count in Hc.
  destruct (call_counts st) as [cells|] eqn:Hcells; [|discriminate].
  apply call_counts_Some in Hcells.
  unfold post_increment. rewrite Hcells, Hc.
  destruct (c <? CInt.INT_MAX); discriminate.
Qed.

Lemma OS_NATIVE_ENTER_in_bounds_witness :
  is_Some (call_count fresh 986)
  /\ forall a i,
       OS_NATIVE_ENTER ["NATIVE_STATS"] (Vptr 0) (Vptr 0) 986 fresh
       <> Fail (OutOfBounds a i).
Proof.
  apply (OS_NATIVE_ENTER_in_bounds ["NATIVE_STATS"] (Vptr 0) (Vptr 0) 986 fresh).
  - lia.
  - eexists; split; vm_compute; reflexivity.
Defined.

(** * Further properties of the macros *)

Lemma index_None {A : Type} (cells : list A) (i : Z) :
  index cells i = None <-> ~ (0 <= i < Z.of_nat (length cells)).
Proof.
  unfold index. destruct (Z.leb_spec 0 i).
  - rewrite lookup_ge_None. lia.
  - split; [lia | reflexivity].
Qed.

Lemma occurrences_nonneg (g : Z) (funcs : list Z) : 0 <= occurrences g funcs.
Proof.
  induction funcs as [|f funcs IH]; cbn; [lia|].
  destruct (Z.eqb f g); lia.
Qed.

Lemma occurrences_cons_eq (g : Z) (funcs : list Z) :
  occurrences g (g :: funcs) = 1 + occurrences g funcs.
Proof. cbn. rewrite Z.eqb_refl. reflexivity. Qed.

Lemma occurrences_cons_ne (f g : Z) (funcs : list Z) :
  g <> f -> occurrences g (f :: funcs) = occurrences g funcs.
Proof.
  intros Hne. cbn. destruct (Z.eqb_spec f g); [congruence | lia].
Qed.

(** What one successful [OS_NATIVE_ENTER] does to the counter it names. *)
Lemma OS_NATIVE_ENTER_Ok_counter defined env that func st st' c :
  "NATIVE_STATS" ∈ defined ->
  OS_NATIVE_ENTER defined env that func st = Ok st' ->
  call_count st func = Some c ->
  c < CInt.INT_MAX /\ call_count st' func = Some (c + 1).
Proof.
  intros Hon H Hc.
  apply OS_NATIVE_ENTER_Ok in H as (cells & c0 & Hcells & Hc0 & Hlt & ->);
    [|exact Hon].
  unfold call_count in Hc. rewrite Hcells, Hc0 in Hc. injection Hc as ->.
  split; [exact Hlt|].
  unfold call_count. rewrite call_counts_insert.
  eapply index_insert_eq, Hc0.
Qed.

Lemma counter_table_kept defined env that func st st' n :
  "NATIVE_STATS" ∈ defined ->
  OS_NATIVE_ENTER defined env that func st = Ok st' ->
  counter_table n st -> counter_table n st'.
Proof.
  intros Hon H (cells & Hcells & Hlen).
  apply OS_NATIVE_ENTER_Ok in H as (cs & c & Hcs & _ & _ & ->); [|exact Hon].
  rewrite Hcells in Hcs. injection Hcs as <-.
  eexists. split; [apply call_counts_insert|].
  rewrite length_insert. exact Hlen.
Qed.

(** X1.  A run of calls counts every call: with [NATIVE_STATS] defined, for
    ordinals inside the table and counters with enough room below
    [INT_MAX], the expansions of [OS_NATIVE_ENTER] for a list of ordinals
    succeed, and afterwards each counter is its old value plus the number of
    times its ordinal occurs in the list. *)
Theorem OS_NATIVE_ENTER_all_counts defined env that funcs n st :
  "NATIVE_STATS" ∈ defined ->
  counter_table n st ->
  Forall (fun f => 0 <= f < n) funcs ->
  (forall g c,
      call_count st g = Some c -> c + occurrences g funcs <= CInt.INT_MAX) ->
  exists st',
    OS_NATIVE_ENTER_all defined env that funcs st = Ok st'
    /\ counter_table n st'
    /\ forall g c,
         call_count st g = Some c ->
         call_count st' g = Some (c + occurrences g funcs).
Proof.
  intros Hon. revert st.
  induction funcs as [|f funcs IH]; intros st Ht Hin Hroom.
  - exists st. split; [reflexivity|]. split; [exact Ht|].
    intros g c Hc. cbn. rewrite Z.add_0_r. exact Hc.
  - apply Forall_cons in Hin as [Hf Hin].
    destruct (counter_table_call_count _ _ f Ht Hf) as [c Hc].
    pose proof (Hroom f c Hc) as Hfc. rewrite occurrences_cons_eq in Hfc.
    pose proof (occurrences_nonneg f funcs) as Hocc.
    destruct (OS_NATIVE_ENTER_counts defined env that f st c Hon Hc)
      as (st1 & H1 & Hc1); [lia|].
    pose proof (OS_NATIVE_ENTER_only_counter _ _ _ _ _ _ Hon H1)
      as (Hother & _).
    destruct (IH st1) as (st' & Hall & Ht' & Hcounts).
    + eapply counter_table_kept; eassumption.
    + exact Hin.
    + intros g d Hd. destruct (decide (g = f)) as [->|Hne].
      * rewrite Hc1 in Hd. injection Hd as <-. lia.
      * rewrite (Hother g Hne) in Hd.
        pose proof (Hroom g d Hd) as Hgd.
        rewrite (occurrences_cons_ne f g funcs Hne) in Hgd. exact Hgd.
    + exists st'. split; [|split; [exact Ht'|]].
      * cbn [OS_NATIVE_ENTER_all]. rewrite H1. exact Hall.
      * intros g d Hd. destruct (decide (g = f)) as [->|Hne].
        -- rewrite Hc in Hd. injection Hd as <-.
           rewrite (Hcounts f (c + 1) Hc1), occurrences_cons_eq.
           f_equal. lia.
        -- rewrite (occurrences_cons_ne f g funcs Hne).
           apply Hcounts. rewrite (Hother g Hne). exact Hd.
Qed.

Lemma fresh_call_count (g c : Z) : call_count fresh g = Some c -> c = 0.
Proof.
  intros H. unfold call_count in H.
  assert (Hc : call_counts fresh = Some (replicate 987 0))
    by (vm_compute; reflexivity).
  rewrite Hc in H. apply index_Some in H as [_ H].
  apply lookup_replicate in H as [-> _]. reflexivity.
Qed.

Lemma OS_NATIVE_ENTER_all_counts_witness :
  exists st',
    OS_NATIVE_ENTER_all ["NATIVE_STATS"] (Vptr 0) (Vptr 0) [533; 0; 533] fresh
    = Ok st'
    /\ counter_table 987 st'
    /\ forall g c,
         call_count fresh g = Some c ->
         call_count st' g = Some (c + occurrences g [533; 0; 533]).
Proof.
  apply (OS_NATIVE_ENTER_all_counts ["NATIVE_STATS"] (Vptr 0) (Vptr 0)
           [533; 0; 533] 987 fresh).
  - exact NATIVE_STATS_given.
  - exact fresh_counter_table.
  - repeat constructor; lia.
  - intros g c Hc. apply fresh_call_count in Hc as ->.
    cbn [occurrences]. unfold CInt.INT_MAX, CInt.width.
    destruct (533 =? g), (0 =? g); lia.
Defined.

Lemma sum_cells_insert (cells : list Z) (i : nat) (c x : Z) :
  cells !! i = Some c ->
  sum_cells (<[i := x]> cells) = sum_cells cells - c + x.
Proof.
  unfold sum_cells. revert i.
  induction cells as [|y cells IH]; intros [|i] H; try discriminate; simpl in *.
  - injection H as ->. lia.
  - rewrite (IH i H). lia.
Qed.

Lemma OS_NATIVE_ENTER_total defined env that func st st' :
  OS_NATIVE_ENTER defined env that func st = Ok st' ->
  total_calls st' =
  (fun t => t + if native_stats defined then 1 else 0) <$> total_calls st.
Proof.
  rewrite OS_NATIVE_ENTER_unfold. unfold total_calls.
  destruct (native_stats defined).
  - intros H. apply post_increment_Ok in H as (cells & c & Ha & Hc & _ & ->).
    apply call_counts_Some in Ha. rewrite call_counts_insert, Ha.
    apply index_Some in Hc as [_ Hc]. cbn [fmap option_fmap option_map].
    rewrite (sum_cells_insert _ _ _ _ Hc). f_equal. lia.
  - intros [= <-]. destruct (call_counts st) as [cells|]; cbn; [|reflexivity].
    f_equal. lia.
Qed.

(** X2.  The sum of all counters is the number of calls: a run of
    [OS_NATIVE_ENTER] expansions that succeeds raises the sum of the
    counters by the length of the run when [NATIVE_STATS] is defined, and
    leaves it as it is otherwise. *)
Theorem OS_NATIVE_ENTER_all_total defined env that funcs st st' :
  OS_NATIVE_ENTER_all defined env that funcs st = Ok st' ->
  total_calls st' =
  (fun t => t + if native_stats defined then Z.of_nat (length funcs) else 0)
    <$> total_calls st.
Proof.
  revert st. induction funcs as [|f funcs IH]; intros st H.
  - injection H as <-. destruct (total_calls st) as [t|]; cbn; [|reflexivity].
    f_equal. destruct (native_stats defined); lia.
  - cbn [OS_NATIVE_ENTER_all] in H.
    destruct (OS_NATIVE_ENTER defined env that f st) as [st1|e] eqn:H1;
      [|discriminate].
    rewrite (IH st1 H), (OS_NATIVE_ENTER_total _ _ _ _ _ _ H1).
    destruct (total_calls st) as [t|]; cbn; [|reflexivity].
    f_equal. destruct (native_stats defined); cbn [length]; lia.
Qed.

Lemma sample_run :
  exists st',
    OS_NATIVE_ENTER_all ["NATIVE_STATS"] (Vptr 0) (Vptr 0) [533; 0; 533] fresh
    = Ok st'.
Proof. eexists. vm_compute. reflexivity. Defined.

Lemma OS_NATIVE_ENTER_all_total_witness :
  total_calls fresh = Some 0
  /\ exists st',
       OS_NATIVE_ENTER_all ["NATIVE_STATS"] (Vptr 0) (Vptr 0) [533; 0; 533]
                           fresh = Ok st'
       /\ total_calls st' = Some 3.
Proof.
  split; [vm_compute; reflexivity|].
  destruct sample_run as (st' & H).
  exists st'. split; [exact H|].
  rewrite (OS_NATIVE_ENTER_all_total _ _ _ _ _ _ H).
  vm_compute. reflexivity.
Defined.

Lemma post_increment_commute (a : string) (f g : Z) (st st1 st2 : store) :
  post_increment a f st = Ok st1 ->
  post_increment a g st1 = Ok st2 ->
  exists st1',
    post_increment a g st = Ok st1' /\ post_increment a f st1' = Ok st2.
Proof.
  intros H1 H2. destruct (decide (f = g)) as [<-|Hne].
  { exists st1. split; assumption. }
  apply post_increment_Ok in H1 as (cells & c & Ha & Hc & Hlt & ->).
  apply post_increment_Ok in H2 as (cells2 & d & Ha2 & Hd & Hlt2 & ->).
  rewrite lookup_insert_eq in Ha2. injection Ha2 as <-.
  pose proof (proj1 (index_Some _ _ _) Hc) as [Hf _].
  rewrite index_insert_ne in Hd by (assumption || congruence).
  pose proof (proj1 (index_Some _ _ _) Hd) as [Hg _].
  exists (<[a := Oints (<[Z.to_nat g := d + 1]> cells)]> st). split.
  - apply post_increment_Ok. exists cells, d.
    repeat split; assumption || reflexivity.
  - apply post_increment_Ok. exists (<[Z.to_nat g := d + 1]> cells), c.
    split; [apply lookup_insert_eq|].
    split; [rewrite index_insert_ne by (assumption || congruence); exact Hc|].
    split; [exact Hlt|].
    rewrite !insert_insert_eq. do 2 f_equal.
    apply list_insert_insert_ne. lia.
Qed.

Lemma OS_NATIVE_ENTER_commute defined env that f g st st1 st2 :
  OS_NATIVE_ENTER defined env that f st = Ok st1 ->
  OS_NATIVE_ENTER defined env that g st1 = Ok st2 ->
  exists st1',
    OS_NATIVE_ENTER defined env that g st = Ok st1'
    /\ OS_NATIVE_ENTER defined env that f st1' = Ok st2.
Proof.
  rewrite !OS_NATIVE_ENTER_unfold.
  destruct (native_stats defined) eqn:E.
  - intros H1 H2.
    destruct (post_increment_commute _ _ _ _ _ _ H1 H2) as (st1' & G1 & G2).
    exists st1'. rewrite OS_NATIVE_ENTER_unfold, E. split; assumption.
  - intros [= <-] [= <-]. exists st.
    rewrite OS_NATIVE_ENTER_unfold, E. split; reflexivity.
Qed.

(** X3.  The order of the calls does not matter: if the expansions of
    [OS_NATIVE_ENTER] for a list of ordinals succeed, then so do the
    expansions for any reordering of the list, and with the same final
    store. *)
Theorem OS_NATIVE_ENTER_all_reordered defined env that funcs funcs' st st' :
  funcs ≡ₚ funcs' ->
  OS_NATIVE_ENTER_all defined env that funcs st = Ok st' ->
  OS_NATIVE_ENTER_all defined env that funcs' st = Ok st'.
Proof.
  intros Hp. revert st st'.
  induction Hp as [|f l l' _ IH|f g l|l l' l'' _ IH1 _ IH2]; intros st st' H.
  - exact H.
  - cbn [OS_NATIVE_ENTER_all] in *.
    destruct (OS_NATIVE_ENTER defined env that f st) as [st1|e];
      [apply IH, H | discriminate].
  - cbn [OS_NATIVE_ENTER_all] in *.
    destruct (OS_NATIVE_ENTER defined env that g st) as [st1|e] eqn:H1;
      [|discriminate].
    destruct (OS_NATIVE_ENTER defined env that f st1) as [st2|e] eqn:H2;
      [|discriminate].
    destruct (OS_NATIVE_ENTER_commute _ _ _ _ _ _ _ _ H1 H2)
      as (st1' & G1 & G2).
    rewrite G1, G2. exact H.
  - apply IH2, IH1, H.
Qed.

Lemma OS_NATIVE_ENTER_all_reordered_witness :
  exists st',
    OS_NATIVE_ENTER_all ["NATIVE_STATS"] (Vptr 0) (Vptr 0) [533; 0; 533] fresh
    = Ok st'
    /\ OS_NATIVE_ENTER_all ["NATIVE_STATS"] (Vptr 0) (Vptr 0) [0; 533; 533]
                           fresh = Ok st'.
Proof.
  destruct sample_run as (st' & H).
  exists st'. split; [exact H|].
  apply (OS_NATIVE_ENTER_all_reordered ["NATIVE_STATS"] (Vptr 0) (Vptr 0)
           [533; 0; 533] [0; 533; 533] fresh st'); [|exact H].
  apply perm_swap.
Defined.

(** X4.  The macro checks no bound.  With [NATIVE_STATS] defined,
    [OS_NATIVE_ENTER(env, that, func)] accesses the counter array outside
    its bounds exactly when [func] is negative or not below the number of
    counters. *)
Theorem OS_NATIVE_ENTER_out_of_bounds defined env that func st :
  "NATIVE_STATS" ∈ defined ->
  OS_NATIVE_ENTER defined env that func st
  = Fail (OutOfBounds "OS_nativeFunctionCallCount" func)
  <-> exists cells,
        call_counts st = Some cells
        /\ ~ (0 <= func < Z.of_nat (length cells)).
Proof.
  intros Hon. rewrite OS_NATIVE_ENTER_unfold, (native_stats_on _ Hon).
  unfold post_increment, call_counts.
  destruct (st !! "OS_nativeFunctionCallCount") as [[n|cells|names]|].
  - split; [discriminate | intros (cs & H & _); discriminate].
  - destruct (index cells func) as [c|] eqn:Hi.
    + split.
      * destruct (c <? CInt.INT_MAX); discriminate.
      * intros (cs & [= <-] & Hout). apply index_None in Hout. congruence.
    + split; [|reflexivity].
      intros _. exists cells. split; [reflexivity | apply index_None, Hi].
  - split; [discriminate | intros (cs & H & _); discriminate].
  - split; [discriminate | intros (cs & H & _); discriminate].
Qed.

Lemma OS_NATIVE_ENTER_out_of_bounds_witness :
  OS_NATIVE_ENTER ["NATIVE_STATS"] (Vptr 0) (Vptr 0) 987 fresh
  = Fail (OutOfBounds "OS_nativeFunctionCallCount" 987)
  /\ OS_NATIVE_ENTER ["NATIVE_STATS"] (Vptr 0) (Vptr 0) (-1) fresh
     = Fail (OutOfBounds "OS_nativeFunctionCallCount" (-1)).
Proof.
  split.
  - apply (OS_NATIVE_ENTER_out_of_bounds ["NATIVE_STATS"] (Vptr 0) (Vptr 0)
             987 fresh NATIVE_STATS_given).
    exists (replicate 987 0). split; [vm_compute; reflexivity|].
    rewrite length_replicate. lia.
  - apply (OS_NATIVE_ENTER_out_of_bounds ["NATIVE_STATS"] (Vptr 0) (Vptr 0)
             (-1) fresh NATIVE_STATS_given).
    exists (replicate 987 0). split; [vm_compute; reflexivity|].
    rewrite length_replicate. lia.
Defined.

(** X5.  A counter never wraps around.  With [NATIVE_STATS] defined,
    [OS_NATIVE_ENTER(env, that, func)] overflows exactly when the counter of
    [func] has reached [INT_MAX]. *)
Theorem OS_NATIVE_ENTER_saturates defined env that func st :
  "NATIVE_STATS" ∈ defined ->
  OS_NATIVE_ENTER defined env that func st
  = Fail (Overflow "OS_nativeFunctionCallCount" func)
  <-> exists c, call_count st func = Some c /\ CInt.INT_MAX <= c.
Proof.
  intros Hon. rewrite OS_NATIVE_ENTER_unfold, (native_stats_on _ Hon).
  unfold post_increment, call_count, call_counts.
  destruct (st !! "OS_nativeFunctionCallCount") as [[n|cells|names]|].
  - split; [discriminate | intros (c & H & _); discriminate].
  - destruct (index cells func) as [c|].
    + destruct (Z.ltb_spec c CInt.INT_MAX).
      * split; [discriminate | intros (d & [= <-] & Hd); lia].
      * split; [intros _; exists c; auto | reflexivity].
    + split; [discriminate | intros (c & H & _); discriminate].
  - split; [discriminate | intros (c & H & _); discriminate].
  - split; [discriminate | intros (c & H & _); discriminate].
Qed.

Lemma OS_NATIVE_ENTER_saturates_witness :
  OS_NATIVE_ENTER ["NATIVE_STATS"] (Vptr 0) (Vptr 0) 0 saturated
  = Fail (Overflow "OS_nativeFunctionCallCount" 0).
Proof.
  apply (OS_NATIVE_ENTER_saturates ["NATIVE_STATS"] (Vptr 0) (Vptr 0) 0
           saturated NATIVE_STATS_given).
  exists CInt.INT_MAX. split; [vm_compute; reflexivity | lia].
Defined.

(** X6.  The counters stay values of type [int] and the table keeps its
    size: if every counter lies between [INT_MIN] and [INT_MAX], then after
    a successful expansion of either macro, in either configuration, there
    are as many counters as before and each still lies in that range. *)
Theorem macros_keep_int_counters defined env that func st st' cells :
  call_counts st = Some cells ->
  Forall CInt.in_range cells ->
  OS_NATIVE_ENTER defined env that func st = Ok st'
  \/ OS_NATIVE_EXIT defined env that func st = Ok st' ->
  exists cells',
    call_counts st' = Some cells'
    /\ length cells' = length cells
    /\ Forall CInt.in_range cells'.
Proof.
  intros Hcells Hr [H|H].
  - rewrite OS_NATIVE_ENTER_unfold in H. destruct (native_stats defined).
    + apply call_counts_Some in Hcells.
      destruct (post_increment_in_range _ _ _ _ _ H Hcells Hr)
        as (cells' & Hc' & Hr').
      apply post_increment_Ok in H as (cs & c & Ha & _ & _ & ->).
      rewrite Hcells in Ha. injection Ha as <-.
      rewrite lookup_insert_eq in Hc'. injection Hc' as <-.
      eexists. split; [apply call_counts_insert|].
      split; [apply length_insert | exact Hr'].
    + injection H as <-. exists cells. auto.
  - rewrite OS_NATIVE_EXIT_unfold in H. injection H as <-. exists cells. auto.
Qed.

Lemma macros_keep_int_counters_witness :
  exists st' cells',
    OS_NATIVE_ENTER ["NATIVE_STATS"] (Vptr 0) (Vptr 0) 533 fresh = Ok st'
    /\ call_counts st' = Some cells'
    /\ length cells' = 987%nat
    /\ Forall CInt.in_range cells'.
Proof.
  destruct (OS_NATIVE_ENTER_counts ["NATIVE_STATS"] (Vptr 0) (Vptr 0) 533
              fresh 0 NATIVE_STATS_given) as (st' & H & _);
    [vm_compute; reflexivity | vm_compute; reflexivity |].
  destruct (macros_keep_int_counters ["NATIVE_STATS"] (Vptr 0) (Vptr 0) 533
              fresh st' (replicate 987 0)) as (cells' & Hc & Hlen & Hr).
  - vm_compute. reflexivity.
  - apply Forall_replicate. split; vm_compute; discriminate.
  - left. exact H.
  - exists st', cells'. rewrite length_replicate in Hlen. auto.
Defined.

(** X7.  Call sites translate in both configurations, and only the counting
    can go wrong: [OS_NATIVE_EXIT] never fails, [OS_NATIVE_ENTER] never fails
    without [NATIVE_STATS], and with it the only failures are a missing
    counter array, an access outside the array, and an overflow of the
    counter of [func]. *)
Theorem macro_failures defined env that func st :
  (forall e, OS_NATIVE_EXIT defined env that func st <> Fail e)
  /\ ("NATIVE_STATS" ∉ defined ->
      forall e, OS_NATIVE_ENTER defined env that func st <> Fail e)
  /\ (forall e,
         OS_NATIVE_ENTER defined env that func st = Fail e ->
         "NATIVE_STATS" ∈ defined
         /\ (e = Unresolved "OS_nativeFunctionCallCount"
             \/ e = OutOfBounds "OS_nativeFunctionCallCount" func
             \/ e = Overflow "OS_nativeFunctionCallCount" func)).
Proof.
  split; [|split].
  - intros e. rewrite OS_NATIVE_EXIT_unfold. discriminate.
  - intros Hoff e. rewrite OS_NATIVE_ENTER_unfold, (native_stats_off _ Hoff).
    discriminate.
  - intros e H. rewrite OS_NATIVE_ENTER_unfold in H.
    destruct (native_stats defined) eqn:E; [|discriminate].
    split; [apply (bool_decide_eq_true_1 _ E)|].
    unfold post_increment in H.
    destruct (st !! "OS_nativeFunctionCallCount") as [[n|cells|names]|];
      try (injection H as <-; auto).
    destruct (index cells func) as [c|]; [|injection H as <-; auto].
    destruct (c <? CInt.INT_MAX); [discriminate | injection H as <-; auto].
Qed.

Lemma macro_failures_witness :
  OS_NATIVE_ENTER ["NATIVE_STATS"] (Vptr 0) (Vptr 0) 5 ∅
  = Fail (Unresolved "OS_nativeFunctionCallCount")
  /\ (forall e, OS_NATIVE_EXIT ["NATIVE_STATS"] (Vptr 0) (Vptr 0) 5 ∅ <> Fail e)
  /\ (forall e, OS_NATIVE_ENTER [] (Vptr 0) (Vptr 0) 5 ∅ <> Fail e)
  /\ "NATIVE_STATS" ∈ ["NATIVE_STATS"]
  /\ (Unresolved "OS_nativeFunctionCallCount"
      = Unresolved "OS_nativeFunctionCallCount"
      \/ Unresolved "OS_nativeFunctionCallCount"
         = OutOfBounds "OS_nativeFunctionCallCount" 5
      \/ Unresolved "OS_nativeFunctionCallCount"
         = Overflow "OS_nativeFunctionCallCount" 5).
Proof.
  assert (E : OS_NATIVE_ENTER ["NATIVE_STATS"] (Vptr 0) (Vptr 0) 5 ∅
              = Fail (Unresolved "OS_nativeFunctionCallCount"))
    by (vm_compute; reflexivity).
  destruct (macro_failures ["NATIVE_STATS"] (Vptr 0) (Vptr 0) 5 ∅)
    as (Hexit & _ & Hclass).
  destruct (macro_failures [] (Vptr 0) (Vptr 0) 5 ∅) as (_ & Hoff & _).
  split; [exact E|]. split; [exact Hexit|].
  split; [exact (Hoff NATIVE_STATS_not_given)|].
  exact (Hclass _ E).
Defined.

(** * Further properties of the enumeration *)

Lemma assoc_Some_elem (vs : list (string * Z)) (x : string) (v : Z) :
  NoDup vs.*1 -> Enum.assoc x vs = Some v <-> (x, v) ∈ vs.
Proof.
  induction vs as [|[n w] vs IH]; intros Hnd.
  - split; [discriminate | intros H; apply elem_of_nil in H; contradiction].
  - change (((n, w) :: vs).*1) with (n :: vs.*1) in Hnd.
    apply NoDup_cons in Hnd as [Hn Hnd]. cbn [Enum.assoc].
    rewrite elem_of_cons. destruct (String.eqb_spec x n) as [->|Hne].
    + split.
      * intros [= ->]. left. reflexivity.
      * intros [[= ->]|Hin]; [reflexivity|].
        exfalso. apply Hn.
        apply (list_elem_of_fmap_2' fst _ (n, v)); [exact Hin | reflexivity].
    + rewrite (IH Hnd). split; [auto|].
      intros [[= -> _]|Hin]; [contradiction | exact Hin].
Qed.

Lemma assoc_None_elem (vs : list (string * Z)) (x : string) :
  Enum.assoc x vs = None <-> x ∉ vs.*1.
Proof.
  induction vs as [|[n w] vs IH].
  - split; [intros _; apply not_elem_of_nil | reflexivity].
  - change (((n, w) :: vs).*1) with (n :: vs.*1). cbn [Enum.assoc].
    rewrite not_elem_of_cons. destruct (String.eqb_spec x n) as [->|Hne].
    + split; [discriminate | intros [H _]; contradiction].
    + rewrite IH. tauto.
Qed.

Lemma OS_FUNCS_values_NoDup : NoDup OS_FUNCS_values.*1.
Proof. rewrite OS_FUNCS_values_names. exact OS_FUNCS_names_NoDup. Qed.

Lemma OS_FUNCS_names_lookup (i : nat) (name : string) :
  OS_FUNCS_names !! i = Some name <->
  OS_FUNCS_values !! i = Some (name, Z.of_nat i).
Proof.
  rewrite <- OS_FUNCS_values_names, list_lookup_fmap.
  destruct (OS_FUNCS_values !! i) as [[n v]|] eqn:Hi.
  - pose proof (OS_FUNCS_values_lookup _ _ _ Hi) as ->.
    split; intros [= ->]; reflexivity.
  - split; discriminate.
Qed.

(** X8.  Names and ordinals correspond: the enumerator listed at position
    [i] (counting from 0) is the one whose value is [i], and the value of an
    enumerator is its position in the listing. *)
Theorem ordinal_is_position (i : nat) (name : string) :
  OS_FUNCS_names !! i = Some name <-> ordinal name = Some (Z.of_nat i).
Proof.
  unfold ordinal. rewrite (assoc_Some_elem _ _ _ OS_FUNCS_values_NoDup).
  rewrite OS_FUNCS_names_lookup. split.
  - intros H. apply list_elem_of_lookup. exists i. exact H.
  - intros H. apply list_elem_of_lookup in H as [j Hj].
    pose proof (OS_FUNCS_values_lookup _ _ _ Hj) as Hij.
    apply Nat2Z.inj in Hij as ->. exact Hj.
Qed.

(** X9.  The enumerator names and the values 0 to N-1 are in one-to-one
    correspondence: a value is that of some enumerator exactly when it lies
    between 0 and N-1, two enumerators with the same value are the same, and
    an identifier has no value exactly when it is not an enumerator. *)
Theorem ordinal_one_to_one :
  (forall v, (exists name, ordinal name = Some v) <-> 0 <= v < OS_FUNCS_count)
  /\ (forall n1 n2 v, ordinal n1 = Some v -> ordinal n2 = Some v -> n1 = n2)
  /\ (forall name, ordinal name = None <-> name ∉ OS_FUNCS_names).
Proof.
  split; [|split].
  - intros v. rewrite <- is_OS_FUNCS_range. unfold is_OS_FUNCS, ordinal.
    split; intros [name H]; exists name;
      apply (assoc_Some_elem _ _ _ OS_FUNCS_values_NoDup); exact H.
  - unfold ordinal. intros n1 n2 v H1 H2.
    apply (assoc_Some_elem _ _ _ OS_FUNCS_values_NoDup) in H1, H2.
    apply list_elem_of_lookup in H1 as [i Hi], H2 as [j Hj].
    pose proof (OS_FUNCS_values_lookup _ _ _ Hi) as Ei.
    pose proof (OS_FUNCS_values_lookup _ _ _ Hj) as Ej.
    assert (i = j) as -> by lia.
    rewrite Hi in Hj. congruence.
  - intros name. unfold ordinal.
    rewrite assoc_None_elem, OS_FUNCS_values_names. reflexivity.
Qed.
